(** * SPI functions on STM32H7 (src/stm32/stm32h7_spi.c)

    A shallow embedding of the bus table, [spi_setup], [spi_prepare] and
    [spi_transfer], and the properties of them that the design document
    states.

    The C code talks to the outside world through memory-mapped registers,
    the clock and pin helpers and the timer.  All of that is modelled by a
    log of I/O events (newest event first): every volatile access, helper
    call with an effect and timer read the code performs is consed onto the
    log, and what a read returns is given by a [board], a family of
    functions of the log so far.  Any deterministic peripheral is such a
    function, so a statement quantified over boards covers every sequence
    of register readings. *)

From Stdlib Require Import ZArith List Bool Lia String Ascii.
From stdpp Require Import base list strings pretty.

Local Open Scope string_scope.
Local Open Scope list_scope.
Local Open Scope Z_scope.

(** ** Machine integers *)

Definition u32 (x : Z) : Z := x mod 2 ^ 32.
Definition u8 (x : Z) : Z := x mod 2 ^ 8.

(** ** Constants of the device header

    The register bit positions and masks come from the vendor header
    (stm32h7xx.h), which is not part of the sources at hand.  They are
    taken as parameters; [stm32h743xx] below gives the values of the
    STM32H743 header, used wherever a concrete run is evaluated. *)

Class DeviceHeader : Type := {
  SPI_CFG1_MBR_Pos : Z;
  SPI_CFG1_DSIZE_Pos : Z;
  SPI_CFG2_CPHA_Pos : Z;
  SPI_CFG2_CPOL_Msk : Z;
  SPI_CFG2_MASTER : Z;
  SPI_CFG2_SSM : Z;
  SPI_CFG2_AFCNTR : Z;
  SPI_CFG2_SSOE : Z;
  SPI_CR1_SSI : Z;
  SPI_CR1_SPE : Z;
  SPI_CR1_CSTART : Z;
  SPI_CR2_TSIZE_Pos : Z;
  SPI_SR_TXP : Z;
  SPI_SR_RXP : Z;
  SPI_SR_EOT : Z
}.

Definition stm32h743xx : DeviceHeader := {|
  SPI_CFG1_MBR_Pos := 28;
  SPI_CFG1_DSIZE_Pos := 0;
  SPI_CFG2_CPHA_Pos := 24;
  SPI_CFG2_CPOL_Msk := Z.shiftl 1 25;
  SPI_CFG2_MASTER := Z.shiftl 1 22;
  SPI_CFG2_SSM := Z.shiftl 1 26;
  SPI_CFG2_AFCNTR := Z.shiftl 1 31;
  SPI_CFG2_SSOE := Z.shiftl 1 29;
  SPI_CR1_SSI := Z.shiftl 1 12;
  SPI_CR1_SPE := Z.shiftl 1 0;
  SPI_CR1_CSTART := Z.shiftl 1 9;
  SPI_CR2_TSIZE_Pos := 0;
  SPI_SR_TXP := Z.shiftl 1 1;
  SPI_SR_RXP := Z.shiftl 1 0;
  SPI_SR_EOT := Z.shiftl 1 3
|}.

(** #define MAX_FIFO 8 // Limit TX FIFO usage so RX FIFO doesn't overrun *)
Definition MAX_FIFO : nat := 8.

(** ** Peripherals, pins and the bus table *)

(** The SPI register blocks ([SPI_TypeDef *] constants of the header). *)
Inductive SPI_TypeDef : Set := SPI1 | SPI2 | SPI3 | SPI4 | SPI5 | SPI6.

#[global] Instance SPI_TypeDef_eq_dec : EqDecision SPI_TypeDef.
Proof. solve_decision. Defined.

(** Registers of one block that the driver touches. *)
Inductive spi_reg : Set := CR1 | CR2 | CFG1 | CFG2 | SR | IFCR | TXDR | RXDR.

#[global] Instance spi_reg_eq_dec : EqDecision spi_reg.
Proof. solve_decision. Defined.

(** [GPIO(PORT, NUM)] and [GPIO_FUNCTION(fn)] are macros of internal.h,
    which is not part of the sources at hand; a pin is kept as the port
    letter and number it was built from, an alternate function as its
    number. *)
Record gpio : Set := GPIO { gpio_port : ascii; gpio_num : nat }.

Inductive gpio_mode : Set := GPIO_FUNCTION (fn : Z).

(** struct spi_info { SPI_TypeDef *spi;
                      uint8_t miso_pin, mosi_pin, sck_pin, function; }; *)
Record spi_info : Set := mk_spi_info {
  spi : SPI_TypeDef;
  miso_pin : gpio;
  mosi_pin : gpio;
  sck_pin : gpio;
  function : gpio_mode
}.

(** The preprocessor conditions the file tests: one build variant is one
    choice of them ([defined_X] stands for [#ifdef X]). *)
Record build : Set := {
  CONFIG_MACH_STM32F1 : bool;
  defined_SPI3 : bool;
  defined_SPI4 : bool;
  defined_GPIOI : bool;
  defined_SPI5 : bool;
  defined_SPI6 : bool
}.

Definition when {A : Type} (c : bool) (l : list A) : list A :=
  if c then l else [].

(** static const struct spi_info spi_bus[] *)
Definition spi_bus (v : build) : list spi_info :=
  [ mk_spi_info SPI2 (GPIO "B" 14) (GPIO "B" 15) (GPIO "B" 13) (GPIO_FUNCTION 5);
    mk_spi_info SPI1 (GPIO "A" 6) (GPIO "A" 7) (GPIO "A" 5) (GPIO_FUNCTION 5);
    mk_spi_info SPI1 (GPIO "B" 4) (GPIO "B" 5) (GPIO "B" 3) (GPIO_FUNCTION 5) ]
  ++ when (negb (CONFIG_MACH_STM32F1 v))
    [ mk_spi_info SPI2 (GPIO "C" 2) (GPIO "C" 3) (GPIO "B" 10) (GPIO_FUNCTION 5) ]
  ++ when (defined_SPI3 v)
    [ mk_spi_info SPI3 (GPIO "C" 11) (GPIO "C" 12) (GPIO "C" 10) (GPIO_FUNCTION 6) ]
  ++ when (defined_SPI4 v)
    [ mk_spi_info SPI4 (GPIO "E" 13) (GPIO "E" 14) (GPIO "E" 12) (GPIO_FUNCTION 5) ]
  ++ [ mk_spi_info SPI2 (GPIO "I" 2) (GPIO "I" 3) (GPIO "I" 1) (GPIO_FUNCTION 5) ]
  ++ when (defined_SPI5 v)
    [ mk_spi_info SPI5 (GPIO "F" 8) (GPIO "F" 9) (GPIO "F" 7) (GPIO_FUNCTION 5);
      mk_spi_info SPI5 (GPIO "H" 7) (GPIO "F" 11) (GPIO "H" 6) (GPIO_FUNCTION 5) ]
  ++ when (defined_SPI6 v)
    [ mk_spi_info SPI6 (GPIO "G" 12) (GPIO "G" 14) (GPIO "G" 13) (GPIO_FUNCTION 5) ].

(** ** The registered names

    Each [DECL_ENUMERATION("spi_bus", name, __COUNTER__)] is followed by a
    [DECL_CONSTANT_STR("BUS_PINS_" name, pins)].  [bus_decls] lists the
    (name, pins) pairs in the order of the file. *)
Definition bus_decls (v : build) : list (string * string) :=
  [ ("spi2", "PB14,PB15,PB13") ]
  ++ [ ("spi1", "PA6,PA7,PA5"); ("spi1a", "PB4,PB5,PB3") ]
  ++ when (negb (CONFIG_MACH_STM32F1 v)) [ ("spi2a", "PC2,PC3,PB10") ]
  ++ when (defined_SPI3 v) [ ("spi3a", "PC11,PC12,PC10") ]
  ++ when (defined_SPI4 v) [ ("spi4", "PE13,PE14,PE12") ]
  ++ when (defined_GPIOI v) [ ("spi2b", "PI2,PI3,PI1") ]
  ++ when (defined_SPI5 v) [ ("spi5", "PF8,PF9,PF7"); ("spi5a", "PH7,PF11,PH6") ]
  ++ when (defined_SPI6 v) [ ("spi6", "PG12,PG14,PG13") ].

(** One registration as the host sees it: the name, its enumeration value
    and the BUS_PINS string. *)
Record bus_registration : Set := {
  reg_name : string;
  reg_value : nat;
  reg_pins : string
}.

(** [__COUNTER__] is the compiler's counter: it expands to [c] and the next
    use sees [c + 1].  The file's uses are the only ones of its translation
    unit, so numbering starts at 0. *)
Fixpoint number_from (c : nat) (ds : list (string * string))
  : list bus_registration :=
  match ds with
  | [] => []
  | (name, pins) :: ds' =>
      {| reg_name := name; reg_value := c; reg_pins := pins |}
        :: number_from (S c) ds'
  end.

Definition registrations (v : build) : list bus_registration :=
  number_from 0 (bus_decls v).

(** The registration that carries enumeration value [i], if any. *)
Definition registration_of (v : build) (i : nat) : option bus_registration :=
  List.find (fun r => Nat.eqb (reg_value r) i) (registrations v).

(** ** Events, boards and the driver monad *)

(** What the driver does to the world, one event per access. *)
Inductive event : Set :=
| Eenable_pclock (periph : SPI_TypeDef)
| Egpio_peripheral (pin : gpio) (mode : gpio_mode) (pullup : Z)
| Ewrite (periph : SPI_TypeDef) (r : spi_reg) (val : Z)
| Eread (periph : SPI_TypeDef) (r : spi_reg) (val : Z)
| Etimer_read (val : Z).

(** The log, newest event first. *)
Definition trace : Set := list event.

(** What is outside the driver.  A read of a register, the timer and the
    clock helpers answer as a function of everything done so far. *)
Record board : Type := {
  (** contents a volatile read of the register returns *)
  reg_read : SPI_TypeDef -> spi_reg -> trace -> Z;
  (** clock-enable bit of the peripheral before any [enable_pclock] *)
  pclock_at_reset : SPI_TypeDef -> bool;
  (** input clock of the peripheral, in Hz *)
  pclock_frequency : SPI_TypeDef -> Z;
  (** the free-running tick counter *)
  timer_now : trace -> Z;
  (** ticks in the given number of microseconds *)
  ticks_of_us : Z -> Z;
  (** tick ordering *)
  ticks_before : Z -> Z -> bool
}.

(** How a call ends: it returns, it called [shutdown] (which never
    returns), or it is still in a busy-wait loop when the polls allowed to
    it are used up. *)
Inductive outcome (A : Type) : Type :=
| Done (a : A) (t : trace)
| Halted (msg : string) (t : trace)
| Polling (t : trace).
Arguments Done {A} a t.
Arguments Halted {A} msg t.
Arguments Polling {A} t.

Definition M (A : Type) : Type := trace -> outcome A.

Definition ret {A : Type} (a : A) : M A := fun t => Done a t.

Definition bind {A B : Type} (m : M A) (k : A -> M B) : M B :=
  fun t =>
    match m t with
    | Done a t' => k a t'
    | Halted msg t' => Halted msg t'
    | Polling t' => Polling t'
    end.

Notation "'do' x <- m ; k" := (bind m (fun x => k))
  (at level 10, x name, m at level 100, k at level 200).
Notation "'run' m ; k" := (bind m (fun _ => k))
  (at level 10, m at level 100, k at level 200).

Definition emit (e : event) : M unit := fun t => Done tt (e :: t).

(** The log a call ends with, however it ends. *)
Definition final_trace {A : Type} (o : outcome A) : trace :=
  match o with
  | Done _ t => t
  | Halted _ t => t
  | Polling t => t
  end.

(** shutdown(msg): halts the firmware with a diagnostic. *)
Definition shutdown {A : Type} (msg : string) : M A := fun t => Halted msg t.

Definition is_reg_write (e : event) : bool :=
  match e with
  | Ewrite _ _ _ => true
  | _ => false
  end.

Definition is_access (p : SPI_TypeDef) (r : spi_reg) (write : bool)
    (e : event) : bool :=
  match e with
  | Ewrite p' r' _ => write && bool_decide (p' = p) && bool_decide (r' = r)
  | Eread p' r' _ =>
      negb write && bool_decide (p' = p) && bool_decide (r' = r)
  | _ => false
  end.

Definition is_timer_read (e : event) : bool :=
  match e with
  | Etimer_read _ => true
  | _ => false
  end.

(** Number of reads (or writes) of a register in the log. *)
Definition count_access (p : SPI_TypeDef) (r : spi_reg) (write : bool)
    (t : trace) : nat :=
  length (List.filter (is_access p r write) t).

(** The values written to a register, oldest first. *)
Definition written (p : SPI_TypeDef) (r : spi_reg) (t : trace) : list Z :=
  omap (fun e =>
          match e with
          | Ewrite p' r' x =>
              if bool_decide (p' = p) && bool_decide (r' = r)
              then Some x else None
          | _ => None
          end) (rev t).

Section Driver.

Context {hdr : DeviceHeader} (v : build) (b : board).

(** *** Register and helper access *)

(** A load from a 32-bit volatile register. *)
Definition read (p : SPI_TypeDef) (r : spi_reg) : M Z :=
  fun t => let x := u32 (reg_read b p r t) in Done x (Eread p r x :: t).

Definition write (p : SPI_TypeDef) (r : spi_reg) (x : Z) : M unit :=
  emit (Ewrite p r x).

(** readb, writeb of board/io.h: one byte wide. *)
Definition readb (p : SPI_TypeDef) (r : spi_reg) : M Z :=
  fun t => let x := u8 (reg_read b p r t) in Done x (Eread p r x :: t).

Definition writeb (p : SPI_TypeDef) (r : spi_reg) (x : Z) : M unit :=
  emit (Ewrite p r (u8 x)).

(** Modelled from the spec: the clock-domain capability of internal.h
    ([is_active], [activate], [clock_frequency]), which is not part of the
    sources at hand.  A peripheral's clock is on when it was on at reset or
    [enable_pclock] was called for it; the two queries have no effect. *)
Definition is_enabled_pclock (p : SPI_TypeDef) : M bool :=
  fun t =>
    Done (pclock_at_reset b p
          || existsb (fun e => match e with
                               | Eenable_pclock p' => bool_decide (p' = p)
                               | _ => false
                               end) t) t.

Definition enable_pclock (p : SPI_TypeDef) : M unit :=
  emit (Eenable_pclock p).

Definition get_pclock_frequency (p : SPI_TypeDef) : M Z :=
  ret (pclock_frequency b p).

(** Modelled from the spec: the pin-routing capability of internal.h
    ([configure_pin(pin_id, function_code, pull_up)]). *)
Definition gpio_peripheral (pin : gpio) (mode : gpio_mode) (pullup : Z)
  : M unit :=
  emit (Egpio_peripheral pin mode pullup).

(** Modelled from the spec: the timer capability of board/misc.h
    ([now], [microseconds_to_ticks], [is_before]). *)
Definition timer_read_time : M Z :=
  fun t => let x := u32 (timer_now b t) in Done x (Etimer_read x :: t).

Definition timer_from_us (us : Z) : Z := u32 (ticks_of_us b us).

Definition timer_is_before (time1 time2 : Z) : bool :=
  ticks_before b time1 time2.

(** *** spi_setup *)

(** struct spi_config, as the file fills it. *)
Record spi_config : Set := mk_spi_config {
  cfg_spi : SPI_TypeDef;
  cfg_div : Z;
  cfg_mode : Z
}.

(** while ((pclk >> (div + 1)) > rate && div < 7) div++;
    [fuel] bounds the number of times the body runs; [None] when the loop
    is still going after that. *)
Fixpoint div_loop (fuel : nat) (pclk rate div : Z) : option Z :=
  if (Z.shiftr pclk (div + 1) >? rate) && (div <? 7) then
    match fuel with
    | O => None
    | S fuel' => div_loop fuel' pclk rate (u32 (div + 1))
    end
  else Some div.

Definition spi_setup (bus mode rate : Z) : M spi_config :=
  if Z.of_nat (length (spi_bus v)) <=? bus then
    shutdown "Invalid spi bus"
  else
    match spi_bus v !! Z.to_nat bus with
    | None => shutdown "Invalid spi bus" (* not reached: bus is in range *)
    | Some info =>
        (* Enable SPI *)
        let spi := spi info in
        do en <- is_enabled_pclock spi;
        run (if negb en then
               run enable_pclock spi;
               run gpio_peripheral (miso_pin info) (function info) 1;
               run gpio_peripheral (mosi_pin info) (function info) 0;
               gpio_peripheral (sck_pin info) (function info) 0
             else ret tt);
        (* Calculate CR1 register *)
        do pclk <- get_pclock_frequency spi;
        match div_loop 7 pclk rate 0 with
        | None => fun t => Polling t
        | Some div => ret (mk_spi_config spi div mode)
        end
    end.

(** *** spi_prepare *)

(** The value [spi_prepare] computes for CFG2:
    (mode << SPI_CFG2_CPHA_Pos) | SPI_CFG2_MASTER | SPI_CFG2_SSM
      | SPI_CFG2_AFCNTR | SPI_CFG2_SSOE, in uint32_t arithmetic. *)
Definition cfg2_of_mode (mode : Z) : Z :=
  u32 (Z.lor (Z.lor (Z.lor (Z.lor (u32 (Z.shiftl mode SPI_CFG2_CPHA_Pos))
                                  SPI_CFG2_MASTER)
                           SPI_CFG2_SSM)
                    SPI_CFG2_AFCNTR)
             SPI_CFG2_SSOE).

(** (div << SPI_CFG1_MBR_Pos) | (7 << SPI_CFG1_DSIZE_Pos) *)
Definition cfg1_of_div (div : Z) : Z :=
  u32 (Z.lor (u32 (Z.shiftl div SPI_CFG1_MBR_Pos))
             (Z.shiftl 7 SPI_CFG1_DSIZE_Pos)).

(** while (timer_is_before(timer_read_time(), end)) ;
    [fuel] bounds the number of timer reads. *)
Fixpoint settle_wait (fuel : nat) (end_ : Z) : M unit :=
  fun t =>
    match fuel with
    | O => Polling t
    | S fuel' =>
        (do now <- timer_read_time;
         if timer_is_before now end_ then settle_wait fuel' end_
         else ret tt) t
    end.

Definition spi_prepare (fuel : nat) (config : spi_config) : M unit :=
  let div := u32 (cfg_div config) in
  let mode := u32 (cfg_mode config) in
  let spi := cfg_spi config in
  (* Load frequency *)
  run write spi CFG1 (cfg1_of_div div);
  (* Load mode *)
  let cfg2 := cfg2_of_mode mode in
  do old <- read spi CFG2;
  let diff := Z.lxor old cfg2 in
  run write spi CFG2 cfg2;
  do now <- timer_read_time;
  let end_ := u32 (now + timer_from_us 1) in
  if negb (Z.land diff SPI_CFG2_CPOL_Msk =? 0) then settle_wait fuel end_
  else ret tt.

(** *** spi_transfer *)

(** The variables of the exchange loop.  The pointers [wptr] (send cursor)
    and [data] (receive cursor) are kept as offsets from the start of the
    caller's buffer, [buf] is the buffer's memory; [end] is then [len]. *)
Record xfer : Set := mk_xfer {
  wptr : nat;
  data : nat;
  buf : list Z
}.

(** The test that guards the write to TXDR. *)
Definition may_send (sr : Z) (len : nat) (s : xfer) : bool :=
  (sr =? SPI_SR_TXP) && (wptr s <? len)%nat
  && (wptr s <? data s + MAX_FIFO)%nat.

(** One pass through the body of [while (data < end)]. *)
Definition transfer_step (spi : SPI_TypeDef) (receive_data : Z) (len : nat)
    (s : xfer) : M xfer :=
  do sr0 <- read spi SR;
  let sr := Z.land sr0 (Z.lor SPI_SR_TXP SPI_SR_RXP) in
  do wptr' <- (if may_send sr len s then
                 run writeb spi TXDR (default 0 (buf s !! wptr s));
                 ret (S (wptr s))
               else ret (wptr s));
  if Z.land sr SPI_SR_RXP =? 0 then
    ret (mk_xfer wptr' (data s) (buf s)) (* continue *)
  else
    do rdata <- readb spi RXDR;
    let buf' := if negb (receive_data =? 0)
                then <[data s := rdata]> (buf s) else buf s in
    ret (mk_xfer wptr' (S (data s)) buf').

(** while (data < end) { ... }, at most [fuel] passes. *)
Fixpoint transfer_loop (fuel : nat) (spi : SPI_TypeDef) (receive_data : Z)
    (len : nat) (s : xfer) : M xfer :=
  fun t =>
    if (data s <? len)%nat then
      match fuel with
      | O => Polling t
      | S fuel' =>
          (do s' <- transfer_step spi receive_data len s;
           transfer_loop fuel' spi receive_data len s') t
      end
    else Done s t.

(** The loop variables and the log when the loop test is evaluated for the
    [n]-th time after the first (or when the loop was left before). *)
Fixpoint transfer_at (n : nat) (spi : SPI_TypeDef) (receive_data : Z)
    (len : nat) (s : xfer) (t : trace) : xfer * trace :=
  match n with
  | O => (s, t)
  | S n' =>
      if (data s <? len)%nat then
        match transfer_step spi receive_data len s t with
        | Done s' t' => transfer_at n' spi receive_data len s' t'
        | _ => (s, t)
        end
      else (s, t)
  end.

(** while ((spi->SR & SPI_SR_EOT) == 0) ; *)
Fixpoint eot_wait (fuel : nat) (spi : SPI_TypeDef) : M unit :=
  fun t =>
    match fuel with
    | O => Polling t
    | S fuel' =>
        (do sr <- read spi SR;
         if Z.land sr SPI_SR_EOT =? 0 then eot_wait fuel' spi
         else ret tt) t
    end.

(** The state the loop starts in: wptr = data, at the buffer's start. *)
Definition xfer_start (buffer : list Z) : xfer := mk_xfer 0 0 buffer.

(** [len] is the uint8_t length, [buffer] the memory [data] points to; the
    result is that memory on return.  Each of the two busy-wait loops may
    poll [fuel] times. *)
Definition spi_transfer (fuel : nat) (config : spi_config) (receive_data : Z)
    (len : nat) (buffer : list Z) : M (list Z) :=
  let spi := cfg_spi config in
  run write spi CR2 (u32 (Z.shiftl (Z.of_nat len) SPI_CR2_TSIZE_Pos));
  (* Enable SPI and start transfer, these MUST be set in this sequence *)
  run write spi CR1 (u32 (Z.lor SPI_CR1_SSI SPI_CR1_SPE));
  run write spi CR1 (u32 (Z.lor (Z.lor SPI_CR1_SSI SPI_CR1_CSTART) SPI_CR1_SPE));
  do s <- transfer_loop fuel spi receive_data len (xfer_start buffer);
  run eot_wait fuel spi;
  (* Clear flags and disable SPI *)
  run write spi IFCR 4294967295;
  run write spi CR1 (u32 SPI_CR1_SSI);
  ret (buf s).

End Driver.

(** ** Simulated boards

    Test doubles on which the driver is run.  Their registers hold what
    was last written to them (0 after reset), their clocks are off at
    reset and run at 100 MHz, and their timer counts 400 ticks per
    microsecond, 100 of which pass between two reads. *)

(** What was last written to a register, if anything. *)
Fixpoint last_written (p : SPI_TypeDef) (r : spi_reg) (t : trace) : option Z :=
  match t with
  | [] => None
  | Ewrite p' r' x :: t' =>
      if bool_decide (p' = p) && bool_decide (r' = r) then Some x
      else last_written p r t'
  | _ :: t' => last_written p r t'
  end.

Definition sim_board (sr rxdr : SPI_TypeDef -> trace -> Z) : board := {|
  reg_read p r t :=
    match r with
    | SR => sr p t
    | RXDR => rxdr p t
    | _ => default 0 (last_written p r t)
    end;
  pclock_at_reset _ := false;
  pclock_frequency _ := 100000000;
  timer_now t := 100 * Z.of_nat (length (List.filter is_timer_read t));
  ticks_of_us us := 400 * us;
  ticks_before time1 time2 := 2 ^ 31 <=? (time1 - time2) mod 2 ^ 32
|}.

(** A board whose status and receive registers follow a script: the
    [k]-th read of SR returns [srs k], the [k]-th read of RXDR [rxs k]. *)
Definition scripted_board (srs rxs : nat -> Z) : board :=
  sim_board (fun p t => srs (count_access p SR false t))
            (fun p t => rxs (count_access p RXDR false t)).

(** Bytes written to TXDR and not yet read back from RXDR. *)
Definition in_flight (p : SPI_TypeDef) (t : trace) : bool :=
  (count_access p RXDR false t <? count_access p TXDR true t)%nat.

(** A loop-back board: the [k]-th byte read from RXDR is the [k]-th byte
    written to TXDR.  [timing k] are the flags the [k]-th read of SR would
    show; the receive flag is shown only while a byte is in flight. *)
Definition echo_board {hdr : DeviceHeader} (timing : nat -> Z) : board :=
  sim_board
    (fun p t =>
       let raw := timing (count_access p SR false t) in
       if in_flight p t then raw else Z.ldiff raw SPI_SR_RXP)
    (fun p t => nth (count_access p RXDR false t) (written p TXDR t) 0).

(** The build with every conditional part present (an STM32H743). *)
Definition stm32h743 : build := {|
  CONFIG_MACH_STM32F1 := false;
  defined_SPI3 := true;
  defined_SPI4 := true;
  defined_GPIOI := true;
  defined_SPI5 := true;
  defined_SPI6 := true
|}.

(** A build without port I (an STM32H723). *)
Definition stm32h723 : build := {|
  CONFIG_MACH_STM32F1 := false;
  defined_SPI3 := true;
  defined_SPI4 := true;
  defined_GPIOI := false;
  defined_SPI5 := true;
  defined_SPI6 := true
|}.

(** ** Statements of the design document, as predicates *)

(** [d] is the smallest integer in [0,7] with pclk >> (d+1) <= rate, or 7
    if no integer of [0,7] satisfies the inequality. *)
Definition smallest_divisor (pclk rate d : Z) : Prop :=
  (0 <= d <= 7 /\ Z.shiftr pclk (d + 1) <= rate
   /\ forall k, 0 <= k < d -> ~ Z.shiftr pclk (k + 1) <= rate)
  \/ (d = 7 /\ forall k, 0 <= k <= 7 -> ~ Z.shiftr pclk (k + 1) <= rate).

(** The pin and clock effects of activating the peripheral of a table row,
    newest first. *)
Definition activation (info : spi_info) : trace :=
  [ Egpio_peripheral (sck_pin info) (function info) 0;
    Egpio_peripheral (mosi_pin info) (function info) 0;
    Egpio_peripheral (miso_pin info) (function info) 1;
    Eenable_pclock (spi info) ].

(** The name of a pin as the host spells it: P, the port letter, the
    number. *)
Definition pin_name (p : gpio) : string :=
  "P" ++ String (gpio_port p) "" ++ pretty (gpio_num p).

(** A pin triplet as a BUS_PINS string. *)
Definition pins_string (pins : gpio * gpio * gpio) : string :=
  let '(p1, p2, p3) := pins in
  pin_name p1 ++ "," ++ pin_name p2 ++ "," ++ pin_name p3.

(** The peripheral a bus name speaks of: "spi", then its number. *)
Definition periph_of_name (name : string) : option SPI_TypeDef :=
  match name with
  | String "s" (String "p" (String "i" (String d _))) =>
      if Ascii.eqb d "1" then Some SPI1
      else if Ascii.eqb d "2" then Some SPI2
      else if Ascii.eqb d "3" then Some SPI3
      else if Ascii.eqb d "4" then Some SPI4
      else if Ascii.eqb d "5" then Some SPI5
      else if Ascii.eqb d "6" then Some SPI6
      else None
  | _ => None
  end.

(** Clock, data-out, data-in. *)
Definition clock_out_in (info : spi_info) : gpio * gpio * gpio :=
  (sck_pin info, mosi_pin info, miso_pin info).

(** Data-in, data-out, clock. *)
Definition in_out_clock (info : spi_info) : gpio * gpio * gpio :=
  (miso_pin info, mosi_pin info, sck_pin info).

(** Every registered enumeration value [i] names row [i] of the table:
    the name is one of the row's peripheral and the BUS_PINS string lists
    the row's pins in the given order. *)
Definition registry_matches (order : spi_info -> gpio * gpio * gpio)
    (v : build) : Prop :=
  forall (i : nat) (r : bus_registration),
    registration_of v i = Some r ->
    exists info, spi_bus v !! i = Some info
      /\ periph_of_name (reg_name r) = Some (spi info)
      /\ reg_pins r = pins_string (order info).

(** The register is plain memory: a read returns what was last written. *)
Definition holds_written (b : board) (p : SPI_TypeDef) (r : spi_reg) : Prop :=
  forall (t : trace) (x : Z), last_written p r t = Some x -> reg_read b p r t = x.

(** The bits the documented layout derives from the mode: the phase bit
    from the mode's low bit, the polarity bit from its high bit, nothing
    else. *)
Definition documented_mode_bits {hdr : DeviceHeader} (mode : Z) : Z :=
  Z.lor (Z.shiftl (Z.b2z (Z.testbit mode 0)) SPI_CFG2_CPHA_Pos)
        (Z.b2z (Z.testbit mode 1) * SPI_CFG2_CPOL_Msk).

(** The contents of CFG2 that [spi_prepare] finds. *)
Definition cfg2_before {hdr : DeviceHeader} (b : board) (config : spi_config)
    (t : trace) : Z :=
  let spi := cfg_spi config in
  u32 (reg_read b spi CFG2
         (Ewrite spi CFG1 (cfg1_of_div (u32 (cfg_div config))) :: t)).

(** The log once [spi_prepare] has loaded both registers: the write of
    CFG1, the read of CFG2, the write of CFG2. *)
Definition loaded {hdr : DeviceHeader} (b : board) (config : spi_config)
    (t : trace) : trace :=
  let spi := cfg_spi config in
  Ewrite spi CFG2 (cfg2_of_mode (u32 (cfg_mode config)))
    :: Eread spi CFG2 (cfg2_before b config t)
    :: Ewrite spi CFG1 (cfg1_of_div (u32 (cfg_div config))) :: t.

(** The tick [spi_prepare] reads after the write of CFG2. *)
Definition settle_start {hdr : DeviceHeader} (b : board)
    (config : spi_config) (t : trace) : Z :=
  u32 (timer_now b (loaded b config t)).

(** The log after that read of the timer. *)
Definition prepared {hdr : DeviceHeader} (b : board) (config : spi_config)
    (t : trace) : trace :=
  Etimer_read (settle_start b config t) :: loaded b config t.

(** The tick at which the settle delay is over: one microsecond later. *)
Definition settle_end {hdr : DeviceHeader} (b : board) (config : spi_config)
    (t : trace) : Z :=
  u32 (settle_start b config t + timer_from_us b 1).

(** [t'] is [t] followed by one wait for the tick [end_]: polls of the
    timer that all read a tick before [end_], then one that does not. *)
Definition waited_until (b : board) (end_ : Z) (t t' : trace) : Prop :=
  exists (polls : list Z) (last : Z),
    t' = Etimer_read last :: map Etimer_read polls ++ t
    /\ Forall (fun x => timer_is_before b x end_ = true) polls
    /\ timer_is_before b last end_ = false.

(** The status flags the exchange loop looks at, as [spi_transfer] reads
    them after the log [t]: spi->SR & (SPI_SR_TXP | SPI_SR_RXP). *)
Definition status {hdr : DeviceHeader} (b : board) (p : SPI_TypeDef)
    (t : trace) : Z :=
  Z.land (u32 (reg_read b p SR t)) (Z.lor SPI_SR_TXP SPI_SR_RXP).

(** The byte at the send cursor. *)
Definition outbound (s : xfer) : Z := u8 (default 0 (buf s !! wptr s)).

(** The peripheral shows "receive byte available" only while a byte that
    was sent has not been read back. *)
Definition rx_causal {hdr : DeviceHeader} (b : board) (p : SPI_TypeDef)
  : Prop :=
  forall t : trace, Z.land (status b p t) SPI_SR_RXP <> 0 -> in_flight p t = true.

(** The peripheral loops the data back: while a byte is in flight, a read
    of RXDR returns the byte written to TXDR that has the index of the
    read. *)
Definition rx_echoes (b : board) (p : SPI_TypeDef) : Prop :=
  forall t : trace,
    in_flight p t = true ->
    u8 (reg_read b p RXDR t)
    = u8 (nth (count_access p RXDR false t) (written p TXDR t) 0).

(** The peripheral always has a byte to hand out and always shows the
    transfer as ended. *)
Definition always_ready {hdr : DeviceHeader} (b : board) (p : SPI_TypeDef)
  : Prop :=
  forall t : trace,
    Z.land (status b p t) SPI_SR_RXP <> 0
    /\ Z.land (u32 (reg_read b p SR t)) SPI_SR_EOT <> 0.

(** The log when the exchange loop of [spi_transfer] starts. *)
Definition started {hdr : DeviceHeader} (config : spi_config) (len : nat)
    (t : trace) : trace :=
  let spi := cfg_spi config in
  Ewrite spi CR1 (u32 (Z.lor (Z.lor SPI_CR1_SSI SPI_CR1_CSTART) SPI_CR1_SPE))
    :: Ewrite spi CR1 (u32 (Z.lor SPI_CR1_SSI SPI_CR1_SPE))
    :: Ewrite spi CR2 (u32 (Z.shiftl (Z.of_nat len) SPI_CR2_TSIZE_Pos)) :: t.

(** The value is a byte. *)
Definition is_byte (x : Z) : Prop := 0 <= x < 256.

(** What holds of a loop-back exchange of [buffer] started at the log [t0]
    whenever the loop test is evaluated: the buffer is the caller's, the
    bytes sent are the buffer up to the send cursor, and the bytes read
    back are as many as the receive cursor says. *)
Definition echo_inv (spi : SPI_TypeDef) (len : nat) (buffer : list Z)
    (t0 : trace) (s : xfer) (t : trace) : Prop :=
  buf s = buffer
  /\ (wptr s <= len)%nat
  /\ (count_access spi RXDR false t
      = count_access spi RXDR false t0 + data s)%nat
  /\ written spi TXDR t = written spi TXDR t0 ++ take (wptr s) buffer.

(** The loop-back board that shows every flag as soon as it can, with the
    constants of the STM32H743 header. *)
Definition loopback_board : board :=
  echo_board (hdr := stm32h743xx) (fun _ => 4294967295).

(** In this pass the byte at the send cursor is written to TXDR, right
    after the read of SR, and the send cursor advances. *)
Definition sends_next {hdr : DeviceHeader} (b : board) (spi : SPI_TypeDef)
    (receive_data : Z) (len : nat) (s : xfer) (t : trace) : Prop :=
  exists s' t',
    transfer_step b spi receive_data len s t = Done s' t'
    /\ wptr s' = S (wptr s)
    /\ exists after,
         t' = after ++ Ewrite spi TXDR (outbound s)
                       :: Eread spi SR (u32 (reg_read b spi SR t)) :: t
         /\ Forall (fun e => is_reg_write e = false) after.

(** The rule for sending in the words of the design document: the byte is
    sent in every pass in which "transmit slot free" is set, the send
    cursor has not reached the length and is not more than [MAX_FIFO]
    ahead of the receive cursor. *)
Definition sends_whenever_free {hdr : DeviceHeader} (b : board)
    (spi : SPI_TypeDef) (receive_data : Z) (len : nat) (s : xfer)
    (t : trace) : Prop :=
  Z.land (status b spi t) SPI_SR_TXP <> 0 ->
  (wptr s < len)%nat ->
  (wptr s <= data s + MAX_FIFO)%nat ->
  sends_next b spi receive_data len s t.

(** The bound on the cursors in the words of the design document. *)
Definition cursors_in_step (s : xfer) : Prop :=
  (data s <= wptr s <= data s + MAX_FIFO)%nat.

(** A board that shows no flag and receives zeros, and boards that show
    the same flags at every read of SR. *)
Definition quiet_board : board := scripted_board (fun _ => 0) (fun _ => 0).

Definition steady_board (flags : Z) : board :=
  scripted_board (fun _ => flags) (fun _ => 0).

(** The index of the table row on port I (the pins of "spi2b"): the rows
    before it are the three fixed ones and the optional rows of "spi2a",
    "spi3a" and "spi4". *)
Definition port_I_row (v : build) : nat :=
  (3 + (if CONFIG_MACH_STM32F1 v then 0 else 1)
   + (if defined_SPI3 v then 1 else 0)
   + (if defined_SPI4 v then 1 else 0))%nat.

(** The table row that carries the peripheral and pins of the bus that is
    registered with the value [i]. *)
Definition row_of_value (v : build) (i : nat) : nat :=
  if defined_GPIOI v || (i <? port_I_row v)%nat then i else S i.

(** The peripheral's clock is on after the log [t]. *)
Definition clock_on (b : board) (p : SPI_TypeDef) (t : trace) : Prop :=
  is_enabled_pclock b p t = Done true t.

(** The fixed bits [spi_prepare] sets in CFG2. *)
Definition cfg2_fixed {hdr : DeviceHeader} : Z :=
  Z.lor (Z.lor (Z.lor SPI_CFG2_MASTER SPI_CFG2_SSM) SPI_CFG2_AFCNTR)
        SPI_CFG2_SSOE.

(** What the driver relies on in the layout of CFG1: the five bits of the
    frame size lie below the three bits of the divisor, which lie within
    the register. *)
Definition cfg1_layout {hdr : DeviceHeader} : Prop :=
  0 <= SPI_CFG1_DSIZE_Pos
  /\ SPI_CFG1_DSIZE_Pos + 5 <= SPI_CFG1_MBR_Pos
  /\ SPI_CFG1_MBR_Pos + 3 <= 32.

(** And in the layout of CFG2: the polarity bit is the one above the phase
    bit, both lie within the register and none of the fixed bits is one
    of them. *)
Definition cfg2_layout {hdr : DeviceHeader} : Prop :=
  0 <= SPI_CFG2_CPHA_Pos
  /\ SPI_CFG2_CPHA_Pos + 2 <= 32
  /\ SPI_CFG2_CPOL_Msk = Z.shiftl 1 (SPI_CFG2_CPHA_Pos + 1)
  /\ forall j, SPI_CFG2_CPHA_Pos <= j <= SPI_CFG2_CPHA_Pos + 1 ->
        Z.testbit cfg2_fixed j = false.

(** The values read from a register, oldest first. *)
Definition reads (p : SPI_TypeDef) (r : spi_reg) (t : trace) : list Z :=
  omap (fun e =>
          match e with
          | Eread p' r' x =>
              if bool_decide (p' = p) && bool_decide (r' = r)
              then Some x else None
          | _ => None
          end) (rev t).

(** An access the exchange loop and the wait after it make: a read of SR
    or of RXDR or a write of TXDR of the peripheral. *)
Definition is_exchange (p : SPI_TypeDef) (e : event) : bool :=
  match e with
  | Eread p' r _ =>
      bool_decide (p' = p) && (bool_decide (r = SR) || bool_decide (r = RXDR))
  | Ewrite p' r _ => bool_decide (p' = p) && bool_decide (r = TXDR)
  | _ => false
  end.

(** The two writes [spi_transfer] ends with, newest first: the flags are
    cleared, then SPI is disabled. *)
Definition stopped {hdr : DeviceHeader} (config : spi_config) : trace :=
  [ Ewrite (cfg_spi config) CR1 (u32 SPI_CR1_SSI);
    Ewrite (cfg_spi config) IFCR 4294967295 ].

(** What one pass of the exchange loop logs, newest first: the read of
    SR, then the write of the byte sent, if any, then the read of the
    byte received, if any. *)
Definition pass_events (p : SPI_TypeDef) (sr : Z) (sent rcvd : option Z)
  : trace :=
  option_list (Eread p RXDR <$> rcvd)
  ++ option_list (Ewrite p TXDR <$> sent)
  ++ [Eread p SR sr].

(** The peripheral never shows "receive byte available". *)
Definition never_available {hdr : DeviceHeader} (b : board)
    (p : SPI_TypeDef) : Prop :=
  forall t : trace, Z.land (status b p t) SPI_SR_RXP = 0.

(** What holds of the exchange of [buffer] started at the log [t0]
    whenever the loop test is evaluated, on every board: the log since
    the start consists of accesses of the exchange, as many bytes were
    read as the receive cursor says and written as the send cursor says,
    the send cursor is within the length and [MAX_FIFO] of the receive
    cursor, and the buffer is the caller's from the receive cursor on. *)
Definition exchange_inv (p : SPI_TypeDef) (len : nat) (buffer : list Z)
    (t0 : trace) (s : xfer) (t : trace) : Prop :=
  exists mid : trace,
    t = mid ++ t0
    /\ Forall (fun e => is_exchange p e = true) mid
    /\ length (reads p RXDR mid) = data s
    /\ length (written p TXDR mid) = wptr s
    /\ (wptr s <= len)%nat
    /\ (wptr s <= data s + MAX_FIFO)%nat
    /\ (data s <= len)%nat
    /\ length (buf s) = length buffer
    /\ drop (data s) (buf s) = drop (data s) buffer.

(** With [receive_data], the buffer up to the receive cursor is what was
    read from RXDR. *)
Definition received_inv (p : SPI_TypeDef) (t0 : trace) (s : xfer)
    (t : trace) : Prop :=
  exists mid : trace,
    t = mid ++ t0 /\ reads p RXDR mid = take (data s) (buf s).

(** On a peripheral that is causal, the bytes written to TXDR are the
    caller's buffer up to the send cursor, which is not behind the
    receive cursor. *)
Definition sent_inv (p : SPI_TypeDef) (buffer : list Z) (t0 : trace)
    (s : xfer) (t : trace) : Prop :=
  exists mid : trace,
    t = mid ++ t0
    /\ (data s <= wptr s)%nat
    /\ written p TXDR mid = map u8 (take (wptr s) buffer).

(** The log of a loop-back exchange of the two bytes 5 and 6 on SPI2. *)
Definition loopback_log : trace :=
  [ Ewrite SPI2 CR1 4096; Ewrite SPI2 IFCR 4294967295;
    Eread SPI2 SR 4294967294;
    Eread SPI2 RXDR 6; Eread SPI2 SR 4294967295;
    Ewrite SPI2 TXDR 6; Eread SPI2 SR 4294967294;
    Eread SPI2 RXDR 5; Eread SPI2 SR 4294967295;
    Ewrite SPI2 TXDR 5; Eread SPI2 SR 4294967294;
    Ewrite SPI2 CR1 4609; Ewrite SPI2 CR1 4097; Ewrite SPI2 CR2 2 ].

(** * Properties *)

(** ** The monad *)

Lemma bind_Done {A B : Type} (m : M A) (k : A -> M B) (t t' : trace) (a : A) :
  m t = Done a t' -> bind m k t = k a t'.
Proof. intros H. unfold bind. now rewrite H. Qed.

Lemma u32_small (x : Z) : 0 <= x < 2 ^ 32 -> u32 x = x.
Proof. intros H. unfold u32. now apply Z.mod_small. Qed.

(** ** spi_setup: the divisor *)

Section Divisor.

Variables pclk rate : Z.

(** The scan started at [div] with enough fuel stops at the first value
    from [div] on that satisfies the inequality, or at 7. *)
Lemma div_loop_scan (fuel : nat) :
  forall div : Z,
    0 <= div <= 7 -> (7 - div <= Z.of_nat fuel) ->
    exists d, div_loop fuel pclk rate div = Some d
      /\ div <= d <= 7
      /\ (forall k, div <= k < d -> Z.shiftr pclk (k + 1) > rate)
      /\ (d < 7 -> Z.shiftr pclk (d + 1) <= rate).
Proof.
  induction fuel as [|fuel IH]; intros div Hdiv Hfuel.
  - assert (div = 7) as -> by lia. cbn [div_loop].
    replace (7 <? 7) with false by reflexivity. rewrite andb_false_r.
    exists 7. repeat split; lia.
  - cbn [div_loop].
    destruct (Z.gtb_spec (Z.shiftr pclk (div + 1)) rate) as [Hgt|Hle];
      destruct (Z.ltb_spec div 7) as [Hlt|Hge]; cbn [andb].
    + rewrite u32_small by lia.
      destruct (IH (div + 1)) as (d & Hd & Hr & Hbelow & Hat); [lia|lia|].
      exists d. repeat split; try lia; auto.
      intros k Hk. destruct (Z.eq_dec k div) as [->|Hne]; [lia|].
      apply Hbelow. lia.
    + exists div. repeat split; lia.
    + exists div. repeat split; lia.
    + exists div. repeat split; lia.
Qed.

Lemma div_loop_smallest :
  exists d, div_loop 7 pclk rate 0 = Some d /\ smallest_divisor pclk rate d.
Proof.
  destruct (div_loop_scan 7 0) as (d & Hd & Hr & Hbelow & Hat); [lia|lia|].
  exists d. split; [exact Hd|].
  destruct (Z.le_gt_cases (Z.shiftr pclk (d + 1)) rate) as [Hle|Hgt].
  - left. repeat split; try lia.
    intros k Hk. specialize (Hbelow k). lia.
  - right. assert (d = 7) as -> by lia. split; [reflexivity|].
    intros k Hk. destruct (Z.eq_dec k 7) as [->|Hne]; [lia|].
    specialize (Hbelow k). lia.
Qed.

End Divisor.

(** ** spi_setup *)

Section Setup.

Context (v : build) (b : board).

Lemma spi_bus_lookup (bus : Z) :
  0 <= bus < Z.of_nat (length (spi_bus v)) ->
  exists info, spi_bus v !! Z.to_nat bus = Some info.
Proof.
  intros H. apply lookup_lt_is_Some_2. lia.
Qed.

(** What [spi_setup] does on a bus of the table: the activation of the
    row's peripheral if its clock is off, nothing otherwise, and the
    divisor of the scan. *)
Lemma spi_setup_in_range (bus mode rate : Z) (info : spi_info) (t : trace) :
  0 <= bus < Z.of_nat (length (spi_bus v)) ->
  spi_bus v !! Z.to_nat bus = Some info ->
  exists d en,
    is_enabled_pclock b (spi info) t = Done en t
    /\ div_loop 7 (pclock_frequency b (spi info)) rate 0 = Some d
    /\ spi_setup v b bus mode rate t
       = Done (mk_spi_config (spi info) d mode)
              (if en then t else activation info ++ t).
Proof.
  intros Hbus Hinfo.
  destruct (div_loop_smallest (pclock_frequency b (spi info)) rate)
    as (d & Hd & _).
  exists d.
  eexists. split; [reflexivity|]. split; [exact Hd|].
  unfold spi_setup.
  destruct (Z.leb_spec (Z.of_nat (length (spi_bus v))) bus) as [Hge|_]; [lia|].
  rewrite Hinfo. unfold bind at 1. unfold is_enabled_pclock at 1.
  match goal with |- context [negb ?e] => destruct e end; cbn [negb].
  - cbv beta iota delta [bind ret get_pclock_frequency]. now rewrite Hd.
  - cbv beta iota delta [bind ret get_pclock_frequency enable_pclock
                           gpio_peripheral emit].
    now rewrite Hd.
Qed.

(** C1: for every valid bus index, every mode and every requested rate
    greater than 0, [spi_setup] returns a configuration whose divisor is
    the smallest integer [d] of [0,7] with pclk >> (d+1) <= rate, or 7 if
    there is none, where pclk is the input clock of the bus's peripheral;
    with pclk = 100000000 and rate = 1000000 the divisor is 6. *)
Theorem spi_setup_divisor (bus mode rate : Z) (t : trace) :
  0 <= bus < Z.of_nat (length (spi_bus v)) ->
  0 < rate ->
  exists info cfg t',
    spi_bus v !! Z.to_nat bus = Some info
    /\ spi_setup v b bus mode rate t = Done cfg t'
    /\ cfg_spi cfg = spi info
    /\ cfg_mode cfg = mode
    /\ smallest_divisor (pclock_frequency b (spi info)) rate (cfg_div cfg)
    /\ (pclock_frequency b (spi info) = 100000000 -> rate = 1000000 ->
        cfg_div cfg = 6).
Proof.
  intros Hbus Hrate.
  destruct (spi_bus_lookup bus Hbus) as (info & Hinfo).
  destruct (spi_setup_in_range bus mode rate info t Hbus Hinfo)
    as (d & en & _ & Hd & Hrun).
  exists info. eexists _, _. split; [exact Hinfo|]. split; [exact Hrun|].
  cbn [cfg_spi cfg_div cfg_mode]. do 2 (split; [reflexivity|]).
  destruct (div_loop_smallest (pclock_frequency b (spi info)) rate)
    as (d' & Hd' & Hsmall).
  assert (d' = d) as -> by congruence.
  split; [exact Hsmall|].
  intros Hpclk ->. rewrite Hpclk in Hd. vm_compute in Hd. congruence.
Qed.

(** C4: for every bus index greater than or equal to the size of the
    table, [spi_setup] halts with the diagnostic "Invalid spi bus": it does
    not return, and the log is the one it was called with, so no register
    was written and no pin or clock was touched before the halt. *)
Theorem spi_setup_invalid_bus (bus mode rate : Z) (t : trace) :
  Z.of_nat (length (spi_bus v)) <= bus ->
  spi_setup v b bus mode rate t = Halted "Invalid spi bus" t.
Proof.
  intros Hbus. unfold spi_setup.
  destruct (Z.leb_spec (Z.of_nat (length (spi_bus v))) bus) as [_|Hlt]; [|lia].
  reflexivity.
Qed.

Lemma is_enabled_after_activation (info : spi_info) (extra t : trace) :
  is_enabled_pclock b (spi info) (extra ++ activation info ++ t)
  = Done true (extra ++ activation info ++ t).
Proof.
  unfold is_enabled_pclock. f_equal.
  rewrite !existsb_app. cbn [activation existsb].
  rewrite bool_decide_eq_true_2 by reflexivity.
  cbn. now rewrite !orb_true_r.
Qed.

(** C5: two [spi_setup] calls on buses of the same peripheral, the first
    made while the peripheral's clock is off: the first call enables the
    clock and routes the three pins of its row, the second call (made
    after it, whatever else [extra] the driver did in between) has no
    effect at all; and whenever the peripheral is already active a call
    has no pin or clock effect. *)
Theorem spi_setup_activates_once
    (bus1 bus2 mode1 mode2 rate1 rate2 : Z) (info1 info2 : spi_info)
    (t extra : trace) :
  0 <= bus1 -> 0 <= bus2 ->
  spi_bus v !! Z.to_nat bus1 = Some info1 ->
  spi_bus v !! Z.to_nat bus2 = Some info2 ->
  spi info1 = spi info2 ->
  (is_enabled_pclock b (spi info1) t = Done false t ->
   exists cfg1 cfg2,
     spi_setup v b bus1 mode1 rate1 t = Done cfg1 (activation info1 ++ t)
     /\ spi_setup v b bus2 mode2 rate2 (extra ++ activation info1 ++ t)
        = Done cfg2 (extra ++ activation info1 ++ t))
  /\ (is_enabled_pclock b (spi info2) t = Done true t ->
      exists cfg2, spi_setup v b bus2 mode2 rate2 t = Done cfg2 t).
Proof.
  intros H1 H2 Hinfo1 Hinfo2 Hsame.
  assert (0 <= bus1 < Z.of_nat (length (spi_bus v))) as Hb1
    by (apply lookup_lt_Some in Hinfo1; lia).
  assert (0 <= bus2 < Z.of_nat (length (spi_bus v))) as Hb2
    by (apply lookup_lt_Some in Hinfo2; lia).
  split.
  - intros Hoff.
    destruct (spi_setup_in_range bus1 mode1 rate1 info1 t Hb1 Hinfo1)
      as (d1 & en1 & Hen1 & _ & Hrun1).
    assert (en1 = false) as -> by congruence.
    destruct (spi_setup_in_range bus2 mode2 rate2 info2
                (extra ++ activation info1 ++ t) Hb2 Hinfo2)
      as (d2 & en2 & Hen2 & _ & Hrun2).
    rewrite <- Hsame, is_enabled_after_activation in Hen2.
    assert (en2 = true) as -> by congruence.
    eexists _, _. split; [exact Hrun1|exact Hrun2].
  - intros Hon.
    destruct (spi_setup_in_range bus2 mode2 rate2 info2 t Hb2 Hinfo2)
      as (d2 & en2 & Hen2 & _ & Hrun2).
    assert (en2 = true) as -> by congruence.
    eexists. exact Hrun2.
Qed.

End Setup.

(** ** The registered names and the table *)

(** C7, as amended: in every build variant that has port I, the bus
    registered with enumeration value [i] is row [i] of the table, a bus
    of the same peripheral, and its BUS_PINS string lists the row's pins
    in the order data-in (MISO), data-out (MOSI), clock (SCK). *)
Theorem registry_matches_table (v : build) :
  defined_GPIOI v = true -> registry_matches in_out_clock v.
Proof.
  destruct v as [[] [] [] [] [] []]; cbn [defined_GPIOI]; intros Hg;
    try discriminate Hg; intros i r H;
    do 11 (destruct i as [|i];
           [ vm_compute in H;
             first [ discriminate H
                   | injection H as <-;
                     eexists; split; [reflexivity|]; split; reflexivity ] | ]);
    vm_compute in H; discriminate H.
Qed.

(** ** spi_prepare *)

Section Prepare.

Context {hdr : DeviceHeader} (b : board).

Lemma spi_prepare_unfold (fuel : nat) (config : spi_config) (t : trace) :
  spi_prepare b fuel config t
  = if negb (Z.land (Z.lxor (cfg2_before b config t)
                            (cfg2_of_mode (u32 (cfg_mode config))))
                    SPI_CFG2_CPOL_Msk =? 0)
    then settle_wait b fuel (settle_end b config t) (prepared b config t)
    else Done tt (prepared b config t).
Proof.
  unfold spi_prepare, settle_end, prepared, settle_start, loaded, cfg2_before.
  cbv beta iota zeta delta [bind ret write read emit timer_read_time].
  match goal with |- context [negb ?c] => destruct c end; reflexivity.
Qed.

(** The bit under the mask differs between two words exactly when their
    exclusive or has it set. *)
Lemma masked_diff (x y m : Z) :
  Z.land (Z.lxor x y) m = 0 <-> Z.land x m = Z.land y m.
Proof.
  assert (Z.land (Z.lxor x y) m = Z.lxor (Z.land x m) (Z.land y m)) as ->.
  { apply Z.bits_inj'. intros n _.
    rewrite Z.land_spec, !Z.lxor_spec, !Z.land_spec.
    now destruct (Z.testbit x n), (Z.testbit y n), (Z.testbit m n). }
  apply Z.lxor_eq_0_iff.
Qed.

Lemma settle_wait_outcome (fuel : nat) (end_ : Z) :
  forall t : trace,
    match settle_wait b fuel end_ t with
    | Done _ t' => waited_until b end_ t t'
    | Halted _ _ => False
    | Polling t' =>
        exists polls, t' = map Etimer_read polls ++ t
          /\ length polls = fuel
          /\ Forall (fun x => timer_is_before b x end_ = true) polls
    end.
Proof.
  induction fuel as [|fuel IH]; intros t; cbn [settle_wait].
  - exists []. repeat split. constructor.
  - cbv beta iota zeta delta [bind timer_read_time ret].
    set (now := u32 (timer_now b t)).
    destruct (timer_is_before b now end_) eqn:Hnow.
    + specialize (IH (Etimer_read now :: t)).
      destruct (settle_wait b fuel end_ (Etimer_read now :: t))
        as [[] t'|msg t'|t'].
      * destruct IH as (polls & last & -> & Hall & Hlast).
        exists (polls ++ [now]), last. rewrite map_app, <- app_assoc.
        repeat split; [|exact Hlast].
        apply Forall_app. split; [exact Hall|]. now constructor.
      * exact IH.
      * destruct IH as (polls & -> & Hlen & Hall).
        exists (polls ++ [now]). rewrite map_app, <- app_assoc, length_app.
        repeat split; [cbn; lia|].
        apply Forall_app. split; [exact Hall|]. now constructor.
    + exists [], now. repeat split; [constructor|exact Hnow].
Qed.

Lemma last_written_polls (p : SPI_TypeDef) (r : spi_reg) (polls : list Z)
    (t : trace) :
  last_written p r (map Etimer_read polls ++ t) = last_written p r t.
Proof. induction polls as [|x polls IH]; [reflexivity|exact IH]. Qed.

Lemma last_written_prepared (config : spi_config) (t : trace) :
  last_written (cfg_spi config) CFG2 (prepared b config t)
  = Some (cfg2_of_mode (u32 (cfg_mode config))).
Proof.
  cbn. now rewrite !bool_decide_eq_true_2 by reflexivity.
Qed.

(** Once [spi_prepare] has returned, CFG2 was last written with the value
    of its mode. *)
Lemma spi_prepare_last_written (fuel : nat) (config : spi_config)
    (t t1 : trace) :
  spi_prepare b fuel config t = Done tt t1 ->
  last_written (cfg_spi config) CFG2 t1
  = Some (cfg2_of_mode (u32 (cfg_mode config))).
Proof.
  rewrite spi_prepare_unfold.
  destruct (negb _).
  - intros Hrun.
    pose proof (settle_wait_outcome fuel (settle_end b config t)
                  (prepared b config t)) as Hw.
    rewrite Hrun in Hw. destruct Hw as (polls & last & -> & _).
    change (Etimer_read last :: map Etimer_read polls ++ prepared b config t)
      with (map Etimer_read (last :: polls) ++ prepared b config t).
    rewrite last_written_polls. apply last_written_prepared.
  - intros [= <-]. apply last_written_prepared.
Qed.

Lemma cfg2_of_mode_u32 (mode : Z) : u32 (cfg2_of_mode mode) = cfg2_of_mode mode.
Proof. unfold cfg2_of_mode, u32. apply Z.mod_mod. lia. Qed.

(** After a call has returned, the next call on the same peripheral finds
    in CFG2 what the first one wrote, if the register is plain memory. *)
Lemma cfg2_before_next (fuel : nat) (config config' : spi_config)
    (t t1 : trace) :
  holds_written b (cfg_spi config) CFG2 ->
  cfg_spi config' = cfg_spi config ->
  spi_prepare b fuel config t = Done tt t1 ->
  cfg2_before b config' t1 = cfg2_of_mode (u32 (cfg_mode config)).
Proof.
  intros Hmem Hspi Hrun. unfold cfg2_before. rewrite Hspi.
  rewrite (Hmem _ (cfg2_of_mode (u32 (cfg_mode config)))).
  - apply cfg2_of_mode_u32.
  - cbn [last_written]. rewrite andb_false_r.
    exact (spi_prepare_last_written fuel config t t1 Hrun).
Qed.

(** C6: [spi_prepare] reads CFG2 before it overwrites it, and after the
    write it waits for the timer to pass one microsecond if and only if
    the clock-polarity bit of the old contents and of the new value
    differ: if they are equal the call returns after the single read of
    the timer that follows the write, otherwise it polls the timer until
    a reading is no longer before the end of the delay, once.  So, on a
    peripheral whose CFG2 holds what was written, a call that follows a
    call with the same polarity does not wait, and a call that follows
    one with the other polarity waits exactly once. *)
Theorem spi_prepare_settle (fuel : nat) (config : spi_config) (t : trace) :
  let old := cfg2_before b config t in
  let new := cfg2_of_mode (u32 (cfg_mode config)) in
  let pol (x : Z) := Z.land x SPI_CFG2_CPOL_Msk in
  (pol old = pol new ->
   spi_prepare b fuel config t = Done tt (prepared b config t))
  /\ (pol old <> pol new ->
      match spi_prepare b fuel config t with
      | Done _ t' =>
          waited_until b (settle_end b config t) (prepared b config t) t'
      | Halted _ _ => False
      | Polling t' =>
          exists polls, t' = map Etimer_read polls ++ prepared b config t
            /\ length polls = fuel
            /\ Forall (fun x => timer_is_before b x (settle_end b config t)
                                = true) polls
      end)
  /\ (holds_written b (cfg_spi config) CFG2 ->
      forall (fuel0 : nat) (config0 : spi_config) (t0 : trace),
        cfg_spi config0 = cfg_spi config ->
        spi_prepare b fuel0 config0 t0 = Done tt t ->
        let prev := cfg2_of_mode (u32 (cfg_mode config0)) in
        (pol prev = pol new ->
         spi_prepare b fuel config t = Done tt (prepared b config t))
        /\ (pol prev <> pol new ->
            forall t', spi_prepare b fuel config t = Done tt t' ->
              waited_until b (settle_end b config t) (prepared b config t) t')).
Proof.
  intros old new pol.
  assert (Hsame : pol old = pol new ->
                  spi_prepare b fuel config t = Done tt (prepared b config t)).
  { intros Heq. rewrite spi_prepare_unfold.
    apply masked_diff in Heq. fold old new. rewrite Heq. reflexivity. }
  assert (Hdiff : pol old <> pol new ->
                  spi_prepare b fuel config t
                  = settle_wait b fuel (settle_end b config t)
                      (prepared b config t)).
  { intros Hne. rewrite spi_prepare_unfold. fold old new.
    destruct (Z.eqb_spec (Z.land (Z.lxor old new) SPI_CFG2_CPOL_Msk) 0)
      as [Heq|_]; [|reflexivity].
    apply masked_diff in Heq. contradiction. }
  split; [exact Hsame|]. split.
  - intros Hne. rewrite (Hdiff Hne). apply settle_wait_outcome.
  - intros Hmem fuel0 config0 t0 Hspi Hprev prev.
    assert (old = prev) as Hold.
    { unfold old, prev.
      apply (cfg2_before_next fuel0 config0 config t0 t); auto.
      now rewrite Hspi. }
    rewrite <- Hold. split; [exact Hsame|].
    intros Hne t' Hrun.
    pose proof (settle_wait_outcome fuel (settle_end b config t)
                  (prepared b config t)) as Hw.
    rewrite <- (Hdiff Hne), Hrun in Hw. exact Hw.
Qed.

Lemma shiftl_inj (x y n : Z) : 0 <= n -> Z.shiftl x n = Z.shiftl y n -> x = y.
Proof.
  intros Hn. rewrite !Z.shiftl_mul_pow2 by exact Hn.
  intros H. apply Z.mul_cancel_r in H; [exact H|]. apply Z.pow_nonzero; lia.
Qed.

(** A byte shifted by at most 24 fits 32 bits. *)
Lemma shifted_byte_u32 (mode pos : Z) :
  0 <= mode < 256 -> 0 <= pos <= 24 ->
  u32 (Z.shiftl mode pos) = Z.shiftl mode pos.
Proof.
  intros Hmode Hpos. apply u32_small.
  rewrite Z.shiftl_mul_pow2 by lia.
  assert (0 < 2 ^ pos) by (apply Z.pow_pos_nonneg; lia).
  assert (2 ^ pos <= 2 ^ 24) by (apply Z.pow_le_mono_r; lia).
  change (2 ^ 32) with (256 * 2 ^ 24). nia.
Qed.

(** The documented bits are the two low bits of the mode, shifted. *)
Lemma documented_mode_bits_low (mode : Z) :
  0 <= SPI_CFG2_CPHA_Pos ->
  SPI_CFG2_CPOL_Msk = Z.shiftl 1 (SPI_CFG2_CPHA_Pos + 1) ->
  documented_mode_bits mode
  = Z.shiftl (Z.b2z (Z.testbit mode 0) + 2 * Z.b2z (Z.testbit mode 1))
             SPI_CFG2_CPHA_Pos.
Proof.
  intros Hpos Hmsk. unfold documented_mode_bits. rewrite Hmsk.
  replace (Z.shiftl 1 (SPI_CFG2_CPHA_Pos + 1))
    with (Z.shiftl 2 SPI_CFG2_CPHA_Pos)
    by (rewrite !Z.shiftl_mul_pow2, Z.pow_add_r by lia; lia).
  destruct (Z.testbit mode 0), (Z.testbit mode 1); cbn [Z.b2z];
    rewrite ?Z.mul_1_l, ?Z.mul_0_l, ?Z.shiftl_0_l, ?Z.lor_0_r, ?Z.lor_0_l;
    try reflexivity.
  now rewrite <- Z.shiftl_lor.
Qed.

(** C10: [spi_prepare] neither checks nor masks the mode: whatever the
    mode, the call does not halt and the value it writes to CFG2 is the
    whole mode shifted to the clock-phase position, ored with the fixed
    bits.  With the polarity bit right above the phase bit, the shifted
    mode is the documented layout (phase from bit 0 of the mode, polarity
    from bit 1, nothing else) exactly when the mode is one of 0, 1, 2, 3;
    a mode of 4 or more sets a bit of CFG2 above the polarity bit. *)
Theorem spi_prepare_mode_unmasked (fuel : nat) (config : spi_config)
    (t : trace) :
  let mode := cfg_mode config in
  let pos := SPI_CFG2_CPHA_Pos in
  0 <= mode < 256 ->
  0 <= pos <= 24 ->
  SPI_CFG2_CPOL_Msk = Z.shiftl 1 (pos + 1) ->
  (exists polls,
      final_trace (spi_prepare b fuel config t)
      = map Etimer_read polls ++ loaded b config t
      /\ hd_error (loaded b config t)
         = Some (Ewrite (cfg_spi config) CFG2 (cfg2_of_mode mode))
      /\ forall msg t', spi_prepare b fuel config t <> Halted msg t')
  /\ cfg2_of_mode mode
     = u32 (Z.lor (Z.lor (Z.lor (Z.lor (Z.shiftl mode pos) SPI_CFG2_MASTER)
                                SPI_CFG2_SSM) SPI_CFG2_AFCNTR) SPI_CFG2_SSOE)
  /\ (Z.shiftl mode pos = documented_mode_bits mode <-> mode < 4)
  /\ (4 <= mode ->
      exists i, pos + 1 < i < 32
        /\ Z.testbit (Z.shiftl mode pos) i = true
        /\ Z.testbit (cfg2_of_mode mode) i = true).
Proof.
  intros mode pos Hmode Hpos Hmsk. subst pos.
  assert (Hu : u32 mode = mode) by (apply u32_small; lia).
  assert (Hhd : hd_error (loaded b config t)
                = Some (Ewrite (cfg_spi config) CFG2 (cfg2_of_mode mode))).
  { unfold loaded. cbn [hd_error]. fold mode. now rewrite Hu. }
  split; [|split; [|split]].
  - rewrite spi_prepare_unfold. fold mode. rewrite Hu.
    destruct (negb _).
    + pose proof (settle_wait_outcome fuel (settle_end b config t)
                    (prepared b config t)) as Hw.
      destruct (settle_wait b fuel (settle_end b config t)
                  (prepared b config t)) as [[] t'|msg t'|t'].
      * destruct Hw as (polls & last & -> & _).
        exists (last :: polls ++ [settle_start b config t]).
        cbn [final_trace map app]. rewrite map_app, <- app_assoc.
        split; [reflexivity|]. split; [exact Hhd|discriminate].
      * contradiction.
      * destruct Hw as (polls & -> & _).
        exists (polls ++ [settle_start b config t]).
        cbn [final_trace]. rewrite map_app, <- app_assoc.
        split; [reflexivity|]. split; [exact Hhd|discriminate].
    + exists [settle_start b config t]. cbn [final_trace map].
      split; [reflexivity|]. split; [exact Hhd|discriminate].
  - unfold cfg2_of_mode. now rewrite shifted_byte_u32.
  - rewrite documented_mode_bits_low by first [lia|exact Hmsk].
    split.
    + intros H. apply shiftl_inj in H; [|lia].
      destruct (Z.testbit mode 0), (Z.testbit mode 1); cbn [Z.b2z] in H; lia.
    + intros Hlt. f_equal.
      assert (mode = 0 \/ mode = 1 \/ mode = 2 \/ mode = 3)
        as [ -> | [ -> | [ -> | -> ] ] ] by lia; reflexivity.
  - intros Hge.
    assert (Hlog : 2 <= Z.log2 mode < 8).
    { split.
      - change 2 with (Z.log2 4). apply Z.log2_le_mono. lia.
      - apply Z.log2_lt_pow2; lia. }
    assert (Hbit : Z.testbit (Z.shiftl mode SPI_CFG2_CPHA_Pos)
                     (SPI_CFG2_CPHA_Pos + Z.log2 mode) = true).
    { rewrite Z.shiftl_spec by lia.
      replace (SPI_CFG2_CPHA_Pos + Z.log2 mode - SPI_CFG2_CPHA_Pos)
        with (Z.log2 mode) by lia.
      apply Z.bit_log2. lia. }
    exists (SPI_CFG2_CPHA_Pos + Z.log2 mode).
    split; [lia|]. split; [exact Hbit|].
    unfold cfg2_of_mode, u32.
    rewrite Z.mod_pow2_bits_low by lia.
    rewrite !Z.lor_spec, Z.mod_pow2_bits_low by lia.
    now rewrite Hbit.
Qed.

End Prepare.

(** ** spi_transfer: one pass of the loop *)

Section Transfer.

Context {hdr : DeviceHeader} (b : board).
Variables (spi : SPI_TypeDef) (receive_data : Z) (len : nat).

(** The body of the loop, spelled out: the log and the cursors after the
    optional write to TXDR, then the optional read of RXDR. *)
Lemma transfer_step_eq (s : xfer) (t : trace) :
  let t1 := Eread spi SR (u32 (reg_read b spi SR t)) :: t in
  let send := may_send (status b spi t) len s in
  let t2 := if send then Ewrite spi TXDR (outbound s) :: t1 else t1 in
  let w := if send then S (wptr s) else wptr s in
  transfer_step b spi receive_data len s t
  = if Z.land (status b spi t) SPI_SR_RXP =? 0
    then Done (mk_xfer w (data s) (buf s)) t2
    else
      let rdata := u8 (reg_read b spi RXDR t2) in
      Done (mk_xfer w (S (data s))
              (if negb (receive_data =? 0) then <[data s := rdata]> (buf s)
               else buf s))
           (Eread spi RXDR rdata :: t2).
Proof.
  unfold transfer_step, status, outbound.
  cbv beta iota zeta delta [bind ret read readb writeb emit].
  destruct (may_send _ len s);
    destruct (Z.land _ SPI_SR_RXP =? 0); reflexivity.
Qed.

Lemma transfer_step_done (s : xfer) (t : trace) :
  exists s' t', transfer_step b spi receive_data len s t = Done s' t'.
Proof.
  rewrite transfer_step_eq. cbv zeta.
  destruct (Z.land _ SPI_SR_RXP =? 0); eexists _, _; reflexivity.
Qed.

(** What one pass does to the cursors. *)
Lemma transfer_step_cursors (s s' : xfer) (t t' : trace) :
  transfer_step b spi receive_data len s t = Done s' t' ->
  (wptr s' = wptr s
   \/ (wptr s' = S (wptr s) /\ wptr s < len /\ wptr s < data s + MAX_FIFO)%nat)
  /\ (data s' = data s
      \/ (data s' = S (data s)
          /\ Z.land (status b spi t) SPI_SR_RXP <> 0)).
Proof.
  rewrite transfer_step_eq. cbv zeta.
  destruct (may_send (status b spi t) len s) eqn:Hsend.
  - unfold may_send in Hsend.
    apply andb_prop in Hsend as [Hsend Hfifo].
    apply andb_prop in Hsend as [_ Hlen].
    apply Nat.ltb_lt in Hfifo, Hlen.
    destruct (Z.eqb_spec (Z.land (status b spi t) SPI_SR_RXP) 0);
      intros [= <- <-]; cbn [wptr data]; auto.
  - destruct (Z.eqb_spec (Z.land (status b spi t) SPI_SR_RXP) 0);
      intros [= <- <-]; cbn [wptr data]; auto.
Qed.

(** C3, as amended: on a pass of the loop in which the status flags read
    as "transmit slot free" alone (set, and "receive byte available"
    clear), the send cursor has not reached the length and is fewer than
    [MAX_FIFO] (8) bytes ahead of the receive cursor, the byte of the
    buffer at the send cursor is written to TXDR and the send cursor
    advances by one, in that pass. *)
Theorem transfer_step_sends (s : xfer) (t : trace) :
  status b spi t = SPI_SR_TXP ->
  (wptr s < len)%nat ->
  (wptr s < data s + MAX_FIFO)%nat ->
  sends_next b spi receive_data len s t.
Proof.
  intros Hsr Hlen Hfifo. unfold sends_next.
  rewrite transfer_step_eq. cbv zeta.
  assert (may_send (status b spi t) len s = true) as ->.
  { unfold may_send. rewrite Hsr, Z.eqb_refl.
    apply Nat.ltb_lt in Hlen, Hfifo. now rewrite Hlen, Hfifo. }
  destruct (Z.land (status b spi t) SPI_SR_RXP =? 0).
  - eexists _, _. split; [reflexivity|]. split; [reflexivity|].
    exists []. split; [reflexivity|constructor].
  - eexists _, _. split; [reflexivity|]. split; [reflexivity|].
    eexists [_]. split; [reflexivity|]. repeat constructor.
Qed.

(** *** The loop *)

(** A property of the loop variables and the log that every pass keeps
    holds whenever the loop test is evaluated. *)
Lemma transfer_at_invariant (P : xfer -> trace -> Prop) :
  (forall s t s' t',
      P s t -> (data s < len)%nat ->
      transfer_step b spi receive_data len s t = Done s' t' -> P s' t') ->
  forall (n : nat) (s : xfer) (t : trace),
    P s t ->
    P (fst (transfer_at b n spi receive_data len s t))
      (snd (transfer_at b n spi receive_data len s t)).
Proof.
  intros Hstep. induction n as [|n IH]; intros s t HP; cbn [transfer_at].
  - exact HP.
  - destruct (Nat.ltb_spec (data s) len) as [Hlt|Hge]; [|exact HP].
    destruct (transfer_step_done s t) as (s' & t' & Hs). rewrite Hs.
    apply IH. exact (Hstep s t s' t' HP Hlt Hs).
Qed.

(** It holds when the loop is left, and the loop does not halt. *)
Lemma transfer_loop_invariant (P : xfer -> trace -> Prop) :
  (forall s t s' t',
      P s t -> (data s < len)%nat ->
      transfer_step b spi receive_data len s t = Done s' t' -> P s' t') ->
  forall (fuel : nat) (s : xfer) (t : trace),
    P s t ->
    match transfer_loop b fuel spi receive_data len s t with
    | Done s' t' => P s' t' /\ (len <= data s')%nat
    | Halted _ _ => False
    | Polling _ => True
    end.
Proof.
  intros Hstep. induction fuel as [|fuel IH]; intros s t HP;
    cbn [transfer_loop];
    destruct (Nat.ltb_spec (data s) len) as [Hlt|Hge]; auto.
  destruct (transfer_step_done s t) as (s' & t' & Hs).
  rewrite (bind_Done _ _ _ _ _ Hs).
  apply IH. exact (Hstep s t s' t' HP Hlt Hs).
Qed.

(** The wait for the end of the transfer does not halt, and returns at the
    first reading that shows the flag. *)
Lemma eot_wait_outcome (fuel : nat) (t : trace) :
  match eot_wait b fuel spi t with
  | Done _ _ => True
  | Halted _ _ => False
  | Polling _ => True
  end.
Proof.
  revert t. induction fuel as [|fuel IH]; intros t; cbn [eot_wait]; [exact I|].
  cbv beta iota zeta delta [bind read].
  destruct (Z.land _ SPI_SR_EOT =? 0); [apply IH|exact I].
Qed.

Lemma eot_wait_ready (fuel : nat) (t : trace) :
  always_ready b spi ->
  exists t', eot_wait b (S fuel) spi t = Done tt t'.
Proof.
  intros Hready. cbn [eot_wait]. cbv beta iota zeta delta [bind read ret].
  destruct (Hready t) as [_ Heot].
  destruct (Z.eqb_spec (Z.land (u32 (reg_read b spi SR t)) SPI_SR_EOT) 0)
    as [H0|_]; [contradiction|].
  eexists. reflexivity.
Qed.

(** With a peripheral that is always ready every pass reads a byte, so the
    loop is left after as many passes as bytes remain. *)
Lemma transfer_loop_ready (fuel : nat) :
  always_ready b spi ->
  forall (s : xfer) (t : trace),
    (len - data s <= fuel)%nat ->
    exists s' t', transfer_loop b fuel spi receive_data len s t = Done s' t'.
Proof.
  intros Hready. induction fuel as [|fuel IH]; intros s t Hfuel;
    cbn [transfer_loop];
    destruct (Nat.ltb_spec (data s) len) as [Hlt|Hge];
    try (eexists _, _; reflexivity).
  { exfalso. lia. }
  destruct (transfer_step_done s t) as (s' & t' & Hs).
  rewrite (bind_Done _ _ _ _ _ Hs).
  apply IH.
  destruct (transfer_step_cursors s s' t t' Hs) as [_ [Hsame|[Hnext _]]].
  - exfalso. revert Hs. rewrite transfer_step_eq. cbv zeta.
    destruct (Hready t) as [Hrxp _].
    destruct (Z.eqb_spec (Z.land (status b spi t) SPI_SR_RXP) 0)
      as [H0|_]; [contradiction|].
    intros [= <- _]. cbn [data] in Hsame. lia.
  - lia.
Qed.

End Transfer.

(** ** spi_transfer *)

Section TransferCall.

Context {hdr : DeviceHeader} (b : board).

(** The call, spelled out around its two loops. *)
Lemma spi_transfer_eq (fuel : nat) (config : spi_config) (receive_data : Z)
    (len : nat) (buffer : list Z) (t : trace) :
  spi_transfer b fuel config receive_data len buffer t
  = match transfer_loop b fuel (cfg_spi config) receive_data len
            (xfer_start buffer) (started config len t) with
    | Done s t1 =>
        match eot_wait b fuel (cfg_spi config) t1 with
        | Done _ t2 =>
            Done (buf s)
                 (Ewrite (cfg_spi config) CR1 (u32 SPI_CR1_SSI)
                    :: Ewrite (cfg_spi config) IFCR 4294967295 :: t2)
        | Halted msg t2 => Halted msg t2
        | Polling t2 => Polling t2
        end
    | Halted msg t1 => Halted msg t1
    | Polling t1 => Polling t1
    end.
Proof.
  unfold spi_transfer, started.
  cbv beta iota zeta delta [bind ret write emit].
  destruct (transfer_loop _ _ _ _ _ _ _) as [s t1|msg t1|t1]; reflexivity.
Qed.

(** Without [receive_data] no pass of the loop touches the buffer. *)
Lemma transfer_step_keeps_buffer (spi : SPI_TypeDef) (len : nat)
    (s s' : xfer) (t t' : trace) :
  transfer_step b spi 0 len s t = Done s' t' -> buf s' = buf s.
Proof.
  rewrite transfer_step_eq. cbv zeta.
  destruct (Z.land _ SPI_SR_RXP =? 0); intros [= <- _]; reflexivity.
Qed.

(** C9: called with [receive_data] false, [spi_transfer] leaves the
    caller's buffer as it was, for every configuration, length, buffer
    and peripheral (so every sequence of received bytes): the buffer is
    unchanged each time the loop test is evaluated, and when the call
    returns; the call does not halt; and with a peripheral that is always
    ready it returns once it may poll more often than the length. *)
Theorem spi_transfer_no_receive (fuel : nat) (config : spi_config)
    (len : nat) (buffer : list Z) (t : trace) :
  (forall n : nat,
      buf (fst (transfer_at b n (cfg_spi config) 0 len (xfer_start buffer)
                  (started config len t))) = buffer)
  /\ match spi_transfer b fuel config 0 len buffer t with
     | Done buffer' _ => buffer' = buffer
     | Halted _ _ => False
     | Polling _ => True
     end
  /\ (always_ready b (cfg_spi config) -> (len < fuel)%nat ->
      exists t', spi_transfer b fuel config 0 len buffer t = Done buffer t').
Proof.
  set (spi := cfg_spi config).
  set (P := fun (s : xfer) (_ : trace) => buf s = buffer).
  assert (Hstep : forall s t0 s' t',
             P s t0 -> (data s < len)%nat ->
             transfer_step b spi 0 len s t0 = Done s' t' -> P s' t').
  { unfold P. intros s t0 s' t' HP _ Hs.
    now rewrite (transfer_step_keeps_buffer spi len s s' t0 t' Hs). }
  assert (Hrun : match spi_transfer b fuel config 0 len buffer t with
                 | Done buffer' _ => buffer' = buffer
                 | Halted _ _ => False
                 | Polling _ => True
                 end).
  { rewrite spi_transfer_eq. fold spi.
    pose proof (transfer_loop_invariant b spi 0 len P Hstep fuel
                  (xfer_start buffer) (started config len t) eq_refl) as Hl.
    destruct (transfer_loop b fuel spi 0 len (xfer_start buffer)
                (started config len t)) as [s t1|msg t1|t1]; auto.
    pose proof (eot_wait_outcome b spi fuel t1) as He.
    destruct (eot_wait b fuel spi t1) as [[] t2|msg t2|t2]; auto.
    exact (proj1 Hl). }
  split; [|split; [exact Hrun|]].
  - intros n.
    exact (transfer_at_invariant b spi 0 len P Hstep n (xfer_start buffer)
             (started config len t) eq_refl).
  - intros Hready Hfuel. revert Hrun. rewrite spi_transfer_eq. fold spi.
    destruct (transfer_loop_ready b spi 0 len fuel Hready (xfer_start buffer)
                (started config len t)) as (s & t1 & ->); [cbn; lia|].
    destruct fuel as [|fuel]; [lia|].
    destruct (eot_wait_ready b spi fuel t1 Hready) as (t2 & ->).
    intros ->. eexists. reflexivity.
Qed.

End TransferCall.

(** ** Counting accesses in the log *)

Lemma count_access_cons (p : SPI_TypeDef) (r : spi_reg) (w : bool) (e : event)
    (t : trace) :
  count_access p r w (e :: t)
  = ((if is_access p r w e then 1 else 0) + count_access p r w t)%nat.
Proof.
  unfold count_access. cbn [List.filter].
  now destruct (is_access p r w e).
Qed.

Lemma is_access_read (p : SPI_TypeDef) (r r' : spi_reg) (x : Z) :
  is_access p r false (Eread p r' x) = bool_decide (r' = r).
Proof. cbn. now rewrite bool_decide_eq_true_2. Qed.

Lemma is_access_write (p : SPI_TypeDef) (r r' : spi_reg) (x : Z) :
  is_access p r true (Ewrite p r' x) = bool_decide (r' = r).
Proof. cbn. now rewrite bool_decide_eq_true_2. Qed.

Lemma written_cons (p : SPI_TypeDef) (r : spi_reg) (e : event) (t : trace) :
  written p r (e :: t)
  = written p r t
    ++ match e with
       | Ewrite p' r' x =>
           if bool_decide (p' = p) && bool_decide (r' = r) then [x] else []
       | _ => []
       end.
Proof.
  unfold written. cbn [rev]. rewrite omap_app. f_equal.
  destruct e as [| |p' r' x| |]; try reflexivity.
  cbn. now destruct (bool_decide (p' = p) && bool_decide (r' = r)).
Qed.

Lemma written_length (p : SPI_TypeDef) (r : spi_reg) (t : trace) :
  length (written p r t) = count_access p r true t.
Proof.
  induction t as [|e t IH]; [reflexivity|].
  rewrite written_cons, count_access_cons, length_app, IH.
  destruct e as [| |p' r' x| |]; cbn; try lia.
  destruct (bool_decide (p' = p)), (bool_decide (r' = r)); cbn; lia.
Qed.

(** ** spi_transfer: the cursors *)

Section Cursors.

Context {hdr : DeviceHeader} (b : board).
Variables (spi : SPI_TypeDef) (receive_data : Z) (len : nat).

(** What one pass adds to the log: a read of RXDR exactly when the receive
    cursor advances, a write of the outbound byte to TXDR exactly when the
    send cursor does. *)
Lemma transfer_step_log (s s' : xfer) (t t' : trace) :
  transfer_step b spi receive_data len s t = Done s' t' ->
  (count_access spi RXDR false t' + data s
   = count_access spi RXDR false t + data s')%nat
  /\ written spi TXDR t'
     = written spi TXDR t
       ++ (if bool_decide (wptr s' = wptr s) then [] else [outbound s]).
Proof.
  rewrite transfer_step_eq. cbv zeta.
  destruct (may_send (status b spi t) len s);
    destruct (Z.land (status b spi t) SPI_SR_RXP =? 0);
    intros [= <- <-]; cbn [wptr data];
    rewrite ?count_access_cons, ?written_cons, ?is_access_read;
    cbn [is_access negb andb];
    rewrite ?(bool_decide_eq_true_2 (spi = spi)) by reflexivity;
    rewrite ?(bool_decide_eq_true_2 (TXDR = TXDR)) by reflexivity;
    rewrite ?(bool_decide_eq_true_2 (RXDR = RXDR)) by reflexivity;
    rewrite ?(bool_decide_eq_true_2 (wptr s = wptr s)) by reflexivity;
    rewrite ?(bool_decide_eq_false_2 (SR = RXDR)) by discriminate;
    rewrite ?(bool_decide_eq_false_2 (SR = TXDR)) by discriminate;
    rewrite ?(bool_decide_eq_false_2 (RXDR = TXDR)) by discriminate;
    rewrite ?(bool_decide_eq_false_2 (S (wptr s) = wptr s)) by lia;
    cbn [andb]; rewrite ?app_nil_r, <- ?app_assoc; cbn [app];
    split; try reflexivity; lia.
Qed.

(** C2, as amended: whenever the test of the exchange loop is evaluated,
    for every length and every peripheral (every sequence of status
    readings), the send cursor is at most [MAX_FIFO] (8) positions ahead
    of the receive cursor and at most at the length; and it is not behind
    the receive cursor provided the peripheral shows "receive byte
    available" only while a byte sent has not been read back, and none
    was in flight when the loop started. *)
Theorem transfer_cursors (buffer : list Z) (t0 : trace) (n : nat) :
  let s := fst (transfer_at b n spi receive_data len (xfer_start buffer) t0) in
  ((wptr s <= data s + MAX_FIFO)%nat /\ (wptr s <= len)%nat)
  /\ (rx_causal b spi -> in_flight spi t0 = false ->
      (data s <= wptr s)%nat).
Proof.
  cbv zeta. split.
  - set (P := fun (s : xfer) (_ : trace) =>
                (wptr s <= data s + MAX_FIFO)%nat /\ (wptr s <= len)%nat).
    apply (transfer_at_invariant b spi receive_data len P).
    + unfold P. intros s t s' t' [Hfifo Hlen] _ Hs.
      destruct (transfer_step_cursors b spi receive_data len s s' t t' Hs)
        as [[Hw|(Hw & Hwl & Hwf)] [Hd|(Hd & _)]]; lia.
    + unfold P, xfer_start, MAX_FIFO. cbn. lia.
  - intros Hcausal Hidle.
    set (P := fun (s : xfer) (t : trace) =>
                (count_access spi RXDR false t
                 = count_access spi RXDR false t0 + data s)%nat
                /\ (count_access spi TXDR true t
                    = count_access spi TXDR true t0 + wptr s)%nat
                /\ (data s <= wptr s)%nat).
    assert (HP : P (fst (transfer_at b n spi receive_data len
                           (xfer_start buffer) t0))
                   (snd (transfer_at b n spi receive_data len
                           (xfer_start buffer) t0))).
    { apply (transfer_at_invariant b spi receive_data len P).
      - unfold P. intros s t s' t' (Hrx & Htx & Hle) _ Hs.
        destruct (transfer_step_log s s' t t' Hs) as [Hrx' Htx'].
        apply (f_equal (@length Z)) in Htx'.
        rewrite length_app, !written_length in Htx'.
        destruct (transfer_step_cursors b spi receive_data len s s' t t' Hs)
          as [Hw [Hd|(Hd & Hrxp)]].
        + destruct Hw as [Hw|(Hw & _)]; rewrite Hw in Htx' |- *.
          * rewrite bool_decide_eq_true_2 in Htx' by reflexivity.
            cbn in Htx'. lia.
          * rewrite bool_decide_eq_false_2 in Htx' by lia.
            cbn in Htx'. lia.
        + apply Hcausal in Hrxp. unfold in_flight in Hrxp, Hidle.
          apply Nat.ltb_lt in Hrxp. apply Nat.ltb_ge in Hidle.
          destruct Hw as [Hw|(Hw & _)]; rewrite Hw in Htx' |- *.
          * rewrite bool_decide_eq_true_2 in Htx' by reflexivity.
            cbn in Htx'. lia.
          * rewrite bool_decide_eq_false_2 in Htx' by lia.
            cbn in Htx'. lia.
      - unfold P, xfer_start. cbn [data wptr]. lia. }
    exact (proj2 (proj2 HP)).
Qed.

End Cursors.

(** ** spi_transfer against a peripheral that loops the data back *)

Section Echo.

Context {hdr : DeviceHeader} (b : board).
Variables (spi : SPI_TypeDef) (receive_data : Z) (len : nat).
Variables (buffer : list Z) (t0 : trace).

Hypothesis receive : receive_data <> 0.
Hypothesis causal : rx_causal b spi.
Hypothesis echoes : rx_echoes b spi.
Hypothesis idle :
  count_access spi RXDR false t0 = count_access spi TXDR true t0.
Hypothesis bytes : Forall is_byte buffer.
Hypothesis fits : (len <= length buffer)%nat.

Lemma buffer_byte (i : nat) :
  (i < len)%nat -> exists x, buffer !! i = Some x /\ u8 x = x.
Proof.
  intros Hi. destruct (lookup_lt_is_Some_2 buffer i) as [x Hx]; [lia|].
  exists x. split; [exact Hx|].
  pose proof (Forall_lookup_1 _ _ _ _ bytes Hx) as Hb. unfold is_byte in Hb.
  unfold u8. apply Z.mod_small. lia.
Qed.

Lemma echo_step (s s' : xfer) (t t' : trace) :
  echo_inv spi len buffer t0 s t -> (data s < len)%nat ->
  transfer_step b spi receive_data len s t = Done s' t' ->
  echo_inv spi len buffer t0 s' t'.
Proof.
  intros (Hbuf & Hwl & Hrx & Htx) Hlt.
  rewrite transfer_step_eq. cbv zeta.
  set (t1 := Eread spi SR (u32 (reg_read b spi SR t)) :: t).
  set (send := may_send (status b spi t) len s).
  set (t2 := if send then Ewrite spi TXDR (outbound s) :: t1 else t1).
  set (w := if send then S (wptr s) else wptr s).
  assert (Hw : (wptr s <= w <= len)%nat).
  { unfold w. destruct send eqn:Hsend; [|lia].
    unfold send, may_send in Hsend.
    apply andb_prop in Hsend as [Hsend _].
    apply andb_prop in Hsend as [_ Hsend].
    apply Nat.ltb_lt in Hsend. lia. }
  assert (Hrx2 : count_access spi RXDR false t2
                 = (count_access spi RXDR false t0 + data s)%nat).
  { unfold t2, t1. destruct send;
      rewrite ?count_access_cons, ?is_access_read; cbn [is_access negb andb];
      rewrite ?(bool_decide_eq_false_2 (SR = RXDR)) by discriminate; lia. }
  assert (Htx2 : written spi TXDR t2 = written spi TXDR t0 ++ take w buffer).
  { unfold t2, t1, w. destruct send eqn:Hsend.
    - rewrite !written_cons, Htx, app_nil_r, <- app_assoc.
      rewrite !bool_decide_eq_true_2 by reflexivity. cbn [andb].
      f_equal. destruct (buffer_byte (wptr s)) as (x & Hx & Hu); [lia|].
      rewrite (take_S_r _ _ _ Hx). f_equal.
      unfold outbound. rewrite Hbuf, Hx.
      change (default 0 (Some x)) with x. now rewrite Hu.
    - now rewrite written_cons, app_nil_r. }
  destruct (Z.eqb_spec (Z.land (status b spi t) SPI_SR_RXP) 0) as [_|Hrxp].
  - intros [= <- <-]. unfold echo_inv. cbn [buf wptr data].
    fold w t2. repeat split; [exact Hbuf|lia|exact Hrx2|exact Htx2].
  - apply causal in Hrxp. unfold in_flight in Hrxp.
    apply Nat.ltb_lt in Hrxp.
    rewrite <- written_length, Htx, length_app, length_take, Hrx,
      written_length, <- idle in Hrxp.
    assert (Hdw : (data s < w)%nat) by lia.
    assert (Hflight : in_flight spi t2 = true).
    { unfold in_flight. apply Nat.ltb_lt.
      rewrite <- written_length, Htx2, length_app, length_take, Hrx2,
        written_length, <- idle. lia. }
    assert (Hecho : buffer !! data s
                    = Some (u8 (reg_read b spi RXDR t2))).
    { rewrite (echoes t2 Hflight), Hrx2, Htx2, nth_lookup.
      rewrite lookup_app_r by (rewrite written_length, <- idle; lia).
      rewrite written_length, <- idle.
      replace (count_access spi RXDR false t0 + data s
               - count_access spi RXDR false t0)%nat with (data s) by lia.
      rewrite lookup_take_lt by exact Hdw.
      destruct (buffer_byte (data s)) as (x & Hx & Hu); [lia|].
      rewrite Hx. change (default 0 (Some x)) with x. now rewrite Hu. }
    intros [= <- <-]. unfold echo_inv. cbn [buf wptr data].
    fold w t2.
    destruct (Z.eqb_spec receive_data 0) as [H0|_]; [contradiction|].
    cbn [negb]. rewrite Hbuf.
    repeat split; [now apply list_insert_id|lia| |].
    + rewrite count_access_cons, is_access_read, Hrx2.
      rewrite bool_decide_eq_true_2 by reflexivity. lia.
    + now rewrite written_cons, app_nil_r.
Qed.

Lemma echo_inv_start :
  echo_inv spi len buffer t0 (xfer_start buffer) t0.
Proof.
  unfold echo_inv, xfer_start. cbn [buf wptr data take].
  rewrite app_nil_r. repeat split; lia.
Qed.

End Echo.

(** *** The simulated loop-back board *)

Lemma echo_board_causal {hdr : DeviceHeader} (timing : nat -> Z)
    (p : SPI_TypeDef) :
  rx_causal (echo_board timing) p.
Proof.
  intros t Hrxp. destruct (in_flight p t) eqn:Hfl; [reflexivity|].
  exfalso. apply Hrxp. unfold status, echo_board, sim_board. cbn [reg_read].
  rewrite Hfl. apply Z.bits_inj'. intros i Hi.
  rewrite !Z.land_spec, Z.bits_0. unfold u32.
  destruct (Z.lt_ge_cases i 32) as [Hlow|Hhigh].
  - rewrite Z.mod_pow2_bits_low by lia. rewrite Z.ldiff_spec.
    now destruct (Z.testbit _ i), (Z.testbit SPI_SR_RXP i),
      (Z.testbit (Z.lor _ _) i).
  - rewrite Z.mod_pow2_bits_high by lia. reflexivity.
Qed.

Lemma echo_board_echoes {hdr : DeviceHeader} (timing : nat -> Z)
    (p : SPI_TypeDef) :
  rx_echoes (echo_board timing) p.
Proof. intros t _. reflexivity. Qed.

Section Loopback.

Local Existing Instance stm32h743xx.

Variables (spi : SPI_TypeDef) (receive_data : Z) (len : nat).
Variables (buffer : list Z) (t0 : trace).

Hypothesis receive : receive_data <> 0.
Hypothesis idle :
  count_access spi RXDR false t0 = count_access spi TXDR true t0.
Hypothesis bytes : Forall is_byte buffer.
Hypothesis fits : (len <= length buffer)%nat.

Lemma loopback_status (t : trace) :
  status loopback_board spi t = if in_flight spi t then 3 else 2.
Proof.
  unfold status, loopback_board, echo_board, sim_board. cbn [reg_read].
  now destruct (in_flight spi t).
Qed.

Lemma loopback_eot (t : trace) :
  Z.land (u32 (reg_read loopback_board spi SR t)) SPI_SR_EOT = 8.
Proof.
  unfold loopback_board, echo_board, sim_board. cbn [reg_read].
  now destruct (in_flight spi t).
Qed.

(** Bytes are in flight exactly when the send cursor is ahead. *)
Lemma echo_inv_in_flight (s : xfer) (t : trace) :
  echo_inv spi len buffer t0 s t ->
  in_flight spi t = (data s <? wptr s)%nat.
Proof.
  intros (_ & Hwl & Hrx & Htx). unfold in_flight.
  rewrite <- written_length, Htx, length_app, length_take, Hrx,
    written_length, <- idle.
  destruct (Nat.ltb_spec (data s) (wptr s));
    [apply Nat.ltb_lt|apply Nat.ltb_ge]; lia.
Qed.

(** Every pass moves exactly one of the two cursors. *)
Lemma loopback_step (s : xfer) (t : trace) :
  echo_inv spi len buffer t0 s t ->
  (data s <= wptr s)%nat -> (data s < len)%nat ->
  exists s' t',
    transfer_step loopback_board spi receive_data len s t = Done s' t'
    /\ echo_inv spi len buffer t0 s' t'
    /\ (data s' <= wptr s')%nat
    /\ (data s' + wptr s' = S (data s + wptr s))%nat.
Proof.
  intros Hinv Hle Hlt.
  destruct (transfer_step_done loopback_board spi receive_data len s t)
    as (s' & t' & Hs).
  exists s', t'. split; [exact Hs|]. split.
  { exact (echo_step loopback_board spi receive_data len buffer t0 receive
             (echo_board_causal _ spi) (echo_board_echoes _ spi)
             idle bytes fits s s' t t' Hinv Hlt Hs). }
  revert Hs. rewrite transfer_step_eq. cbv zeta.
  rewrite loopback_status, (echo_inv_in_flight s t Hinv).
  unfold may_send, MAX_FIFO.
  destruct (Nat.ltb_spec (data s) (wptr s)) as [Hahead|Hlevel].
  - change (Z.land 3 SPI_SR_RXP =? 0) with false.
    change (3 =? SPI_SR_TXP) with false. cbn [andb].
    intros [= <- _]. cbn [data wptr]. lia.
  - change (Z.land 2 SPI_SR_RXP =? 0) with true.
    change (2 =? SPI_SR_TXP) with true. cbn [andb].
    assert ((wptr s <? len)%nat = true) as -> by (apply Nat.ltb_lt; lia).
    assert ((wptr s <? data s + 8)%nat = true) as ->
      by (apply Nat.ltb_lt; lia).
    intros [= <- _]. cbn [data wptr]. lia.
Qed.

(** So the loop is left after twice as many passes as bytes remain. *)
Lemma loopback_loop (fuel : nat) :
  forall (s : xfer) (t : trace),
    echo_inv spi len buffer t0 s t ->
    (data s <= wptr s)%nat ->
    (2 * len - (data s + wptr s) <= fuel)%nat ->
    exists s' t',
      transfer_loop loopback_board fuel spi receive_data len s t = Done s' t'.
Proof.
  induction fuel as [|fuel IH]; intros s t Hinv Hle Hfuel;
    cbn [transfer_loop];
    destruct (Nat.ltb_spec (data s) len) as [Hlt|Hge];
    try (eexists _, _; reflexivity).
  { exfalso. destruct Hinv as (_ & Hwl & _). lia. }
  destruct (loopback_step s t Hinv Hle Hlt) as (s' & t' & Hs & Hinv' & Hle' & Hsum).
  rewrite (bind_Done _ _ _ _ _ Hs). apply IH; [exact Hinv'|exact Hle'|].
  destruct Hinv as (_ & Hwl & _). lia.
Qed.

End Loopback.

(** The three register writes that start a transfer leave the data
    registers alone. *)
Lemma started_idle {hdr : DeviceHeader} (config : spi_config) (len : nat)
    (t : trace) :
  count_access (cfg_spi config) RXDR false t
  = count_access (cfg_spi config) TXDR true t ->
  count_access (cfg_spi config) RXDR false (started config len t)
  = count_access (cfg_spi config) TXDR true (started config len t).
Proof.
  intros Hidle. unfold started.
  rewrite !count_access_cons, !is_access_write. cbn [is_access andb].
  rewrite !bool_decide_eq_false_2 by discriminate. cbn. exact Hidle.
Qed.

(** C8: called with [receive_data] true against a peripheral that hands
    back each byte sent as the byte received of the same index (and so
    shows a byte as available only once it was sent), with no byte in
    flight at the call, [spi_transfer] returns the buffer it was given,
    for every length and every buffer of bytes at least that long: on any
    such peripheral, whatever its timing, the call does not halt and
    returns only with the buffer unchanged; and on the simulated loop-back
    board it does return once it may poll more than twice the length. *)
Theorem spi_transfer_echo (fuel : nat) (config : spi_config)
    (receive_data : Z) (len : nat) (buffer : list Z) :
  receive_data <> 0 ->
  Forall is_byte buffer ->
  (len <= length buffer)%nat ->
  (forall (hdr : DeviceHeader) (b : board) (t : trace),
      rx_causal b (cfg_spi config) ->
      rx_echoes b (cfg_spi config) ->
      count_access (cfg_spi config) RXDR false t
      = count_access (cfg_spi config) TXDR true t ->
      match spi_transfer b fuel config receive_data len buffer t with
      | Done buffer' _ => buffer' = buffer
      | Halted _ _ => False
      | Polling _ => True
      end)
  /\ ((2 * len < fuel)%nat ->
      exists t',
        spi_transfer (hdr := stm32h743xx) loopback_board fuel config
          receive_data len buffer []
        = Done buffer t').
Proof.
  intros Hrd Hbytes Hfits.
  set (spi := cfg_spi config).
  assert (Hpartial :
            forall (hdr : DeviceHeader) (b : board) (t : trace),
              rx_causal b spi -> rx_echoes b spi ->
              count_access spi RXDR false t = count_access spi TXDR true t ->
              match spi_transfer b fuel config receive_data len buffer t with
              | Done buffer' _ => buffer' = buffer
              | Halted _ _ => False
              | Polling _ => True
              end).
  { intros hdr b t Hcausal Hechoes Hidle.
    rewrite spi_transfer_eq. fold spi.
    pose proof (started_idle config len t Hidle) as Hidle'. fold spi in Hidle'.
    pose proof (transfer_loop_invariant b spi receive_data len
                  (echo_inv spi len buffer (started config len t))
                  (fun s t1 s' t' =>
                     echo_step b spi receive_data len buffer
                       (started config len t) Hrd Hcausal Hechoes Hidle'
                       Hbytes Hfits s s' t1 t')
                  fuel (xfer_start buffer) (started config len t)
                  (echo_inv_start spi len buffer (started config len t)
                     Hidle' Hfits))
      as Hl.
    destruct (transfer_loop b fuel spi receive_data len (xfer_start buffer)
                (started config len t)) as [s t1|msg t1|t1]; auto.
    pose proof (eot_wait_outcome b spi fuel t1) as He.
    destruct (eot_wait b fuel spi t1) as [[] t2|msg t2|t2]; auto.
    exact (proj1 (proj1 Hl)). }
  split; [exact Hpartial|].
  intros Hfuel.
  specialize (Hpartial stm32h743xx loopback_board []
                (echo_board_causal _ spi) (echo_board_echoes _ spi) eq_refl).
  pose proof (started_idle (hdr := stm32h743xx) config len [] eq_refl)
    as Hidle0.
  fold spi in Hidle0.
  revert Hpartial. rewrite spi_transfer_eq. fold spi.
  destruct (loopback_loop spi receive_data len buffer
              (started (hdr := stm32h743xx) config len [])
              Hrd Hidle0 Hbytes Hfits fuel (xfer_start buffer)
              (started (hdr := stm32h743xx) config len []))
    as (s & t1 & ->).
  - now apply echo_inv_start.
  - cbn. lia.
  - cbn [xfer_start data wptr]. lia.
  - destruct fuel as [|fuel]; [lia|].
    cbn [eot_wait]. cbv beta iota zeta delta [bind read ret].
    rewrite (loopback_eot spi t1). cbn [Z.eqb].
    intros ->. eexists. reflexivity.
Qed.

(** * Concrete runs *)

(** ** spi_setup *)

(** Bus 0 at 1 MHz on a board clocked at 100 MHz: divisor 6, and the pins
    of the first row are routed. *)
Example spi_setup_first_bus :
  spi_setup stm32h743 quiet_board 0 0 1000000 []
  = Done (mk_spi_config SPI2 6 0)
         [ Egpio_peripheral (GPIO "B" 13) (GPIO_FUNCTION 5) 0;
           Egpio_peripheral (GPIO "B" 15) (GPIO_FUNCTION 5) 0;
           Egpio_peripheral (GPIO "B" 14) (GPIO_FUNCTION 5) 1;
           Eenable_pclock SPI2 ].
Proof. reflexivity. Qed.

(** A rate no divisor reaches: the divisor is clamped to 7. *)
Example spi_setup_clamped :
  exists t, spi_setup stm32h743 quiet_board 0 0 1000 []
            = Done (mk_spi_config SPI2 7 0) t.
Proof. eexists. vm_compute. reflexivity. Qed.

Lemma spi_setup_divisor_witness :
  (0 <= 0 < Z.of_nat (length (spi_bus stm32h743)))
  /\ 0 < 1000000
  /\ exists cfg t',
       spi_setup stm32h743 quiet_board 0 0 1000000 [] = Done cfg t'
       /\ cfg_div cfg = 6.
Proof.
  assert (H0 : 0 <= 0 < Z.of_nat (length (spi_bus stm32h743)))
    by (cbn; lia).
  assert (H1 : 0 < 1000000) by lia.
  split; [exact H0|]. split; [exact H1|].
  destruct (spi_setup_divisor stm32h743 quiet_board 0 0 1000000 [] H0 H1)
    as (info & cfg & t' & Hinfo & Hrun & Hspi & _ & _ & Hsix).
  exists cfg, t'. split; [exact Hrun|].
  apply Hsix; reflexivity.
Defined.

Lemma spi_setup_invalid_bus_witness :
  Z.of_nat (length (spi_bus stm32h743)) <= 10
  /\ spi_setup stm32h743 quiet_board 10 0 1000000 []
     = Halted "Invalid spi bus" [].
Proof.
  assert (H : Z.of_nat (length (spi_bus stm32h743)) <= 10) by (cbn; lia).
  split; [exact H|].
  exact (spi_setup_invalid_bus stm32h743 quiet_board 10 0 1000000 [] H).
Defined.

(** Buses 1 ("spi1") and 2 ("spi1a") are both on SPI1: the second call
    routes nothing, not even its own pins. *)
Lemma spi_setup_activates_once_witness :
  exists cfg1 cfg2 t1,
    spi_setup stm32h743 quiet_board 1 0 1000000 [] = Done cfg1 t1
    /\ length t1 = 4%nat
    /\ spi_setup stm32h743 quiet_board 2 3 4000000 t1 = Done cfg2 t1.
Proof.
  destruct (spi_setup_activates_once stm32h743 quiet_board 1 2 0 3
              1000000 4000000
              (mk_spi_info SPI1 (GPIO "A" 6) (GPIO "A" 7) (GPIO "A" 5)
                 (GPIO_FUNCTION 5))
              (mk_spi_info SPI1 (GPIO "B" 4) (GPIO "B" 5) (GPIO "B" 3)
                 (GPIO_FUNCTION 5))
              [] [] ltac:(lia) ltac:(lia) eq_refl eq_refl eq_refl)
    as [Hfirst _].
  destruct (Hfirst eq_refl) as (cfg1 & cfg2 & Hrun1 & Hrun2).
  exists cfg1, cfg2. eexists. split; [exact Hrun1|].
  split; [reflexivity|exact Hrun2].
Defined.

(** ** The registered names *)

Lemma registry_matches_table_witness :
  defined_GPIOI stm32h743 = true /\ registry_matches in_out_clock stm32h743.
Proof.
  split; [reflexivity|].
  exact (registry_matches_table stm32h743 eq_refl).
Defined.

(** C7 as stated fails: "spi2" is registered with the string
    "PB14,PB15,PB13", and row 0 has clock PB13, data-out PB15 and data-in
    PB14, so the string is not the row's pins in the order clock,
    data-out, data-in. *)
Lemma registry_not_clock_first : ~ registry_matches clock_out_in stm32h743.
Proof.
  intros H.
  destruct (H 0%nat _ eq_refl) as (info & Hinfo & _ & Hpins).
  injection Hinfo as <-. vm_compute in Hpins. discriminate Hpins.
Qed.

(** Without port I the table still has the row of "spi2b" but the name is
    not registered, so the names after it are one row off: value 6 is
    "spi5" (PF8,PF9,PF7) and row 6 is SPI2 on PI2, PI3, PI1. *)
Lemma registry_off_by_one_without_GPIOI :
  registration_of stm32h723 6
  = Some {| reg_name := "spi5"; reg_value := 6; reg_pins := "PF8,PF9,PF7" |}
  /\ spi_bus stm32h723 !! 6%nat
     = Some (mk_spi_info SPI2 (GPIO "I" 2) (GPIO "I" 3) (GPIO "I" 1)
               (GPIO_FUNCTION 5))
  /\ ~ registry_matches in_out_clock stm32h723.
Proof.
  split; [reflexivity|]. split; [reflexivity|].
  intros H.
  destruct (H 6%nat _ eq_refl) as (info & Hinfo & Hperiph & _).
  injection Hinfo as <-. vm_compute in Hperiph. discriminate Hperiph.
Qed.

(** ** spi_prepare *)

(** Mode 0 after reset, then mode 0 again, then mode 2 (polarity set): the
    first two calls read the timer once and return, the third polls it
    until 400 ticks (one microsecond) have passed. *)
Example spi_prepare_three_calls :
  let cfg0 := mk_spi_config SPI2 6 0 in
  let cfg2 := mk_spi_config SPI2 6 2 in
  let t1 := prepared (hdr := stm32h743xx) quiet_board cfg0 [] in
  let t2 := prepared (hdr := stm32h743xx) quiet_board cfg0 t1 in
  spi_prepare (hdr := stm32h743xx) quiet_board 0 cfg0 [] = Done tt t1
  /\ spi_prepare (hdr := stm32h743xx) quiet_board 0 cfg0 t1 = Done tt t2
  /\ spi_prepare (hdr := stm32h743xx) quiet_board 5 cfg2 t2
     = Done tt (map Etimer_read [600; 500; 400; 300]
                ++ prepared (hdr := stm32h743xx) quiet_board cfg2 t2)
  /\ settle_start (hdr := stm32h743xx) quiet_board cfg2 t2 = 200
  /\ settle_end (hdr := stm32h743xx) quiet_board cfg2 t2 = 600.
Proof. vm_compute. repeat split. Qed.

Lemma spi_prepare_settle_witness :
  let cfg0 := mk_spi_config SPI2 6 0 in
  let cfg2 := mk_spi_config SPI2 6 2 in
  let t1 := prepared (hdr := stm32h743xx) quiet_board cfg0 [] in
  spi_prepare (hdr := stm32h743xx) quiet_board 0 cfg0 [] = Done tt t1
  /\ waited_until quiet_board
       (settle_end (hdr := stm32h743xx) quiet_board cfg2 t1)
       (prepared (hdr := stm32h743xx) quiet_board cfg2 t1)
       (map Etimer_read [500; 400; 300; 200]
        ++ prepared (hdr := stm32h743xx) quiet_board cfg2 t1).
Proof.
  cbv zeta. split.
  - apply (proj1 (spi_prepare_settle (hdr := stm32h743xx) quiet_board 0
                    (mk_spi_config SPI2 6 0) [])).
    reflexivity.
  - pose proof (proj1 (proj2 (spi_prepare_settle (hdr := stm32h743xx)
                                quiet_board 5 (mk_spi_config SPI2 6 2)
                                (prepared (hdr := stm32h743xx) quiet_board
                                   (mk_spi_config SPI2 6 0) []))))
      as Hwait.
    cbv zeta in Hwait.
    assert (Hne : Z.land (cfg2_before (hdr := stm32h743xx) quiet_board
                            (mk_spi_config SPI2 6 2)
                            (prepared (hdr := stm32h743xx) quiet_board
                               (mk_spi_config SPI2 6 0) []))
                         (SPI_CFG2_CPOL_Msk (DeviceHeader := stm32h743xx))
                  <> Z.land (cfg2_of_mode (hdr := stm32h743xx) (u32 2))
                            (SPI_CFG2_CPOL_Msk (DeviceHeader := stm32h743xx)))
      by (vm_compute; discriminate).
    specialize (Hwait Hne).
    change (spi_prepare (hdr := stm32h743xx) quiet_board 5
              (mk_spi_config SPI2 6 2)
              (prepared (hdr := stm32h743xx) quiet_board
                 (mk_spi_config SPI2 6 0) []))
      with (Done tt (map Etimer_read [500; 400; 300; 200]
                     ++ prepared (hdr := stm32h743xx) quiet_board
                          (mk_spi_config SPI2 6 2)
                          (prepared (hdr := stm32h743xx) quiet_board
                             (mk_spi_config SPI2 6 0) []))) in Hwait.
    exact Hwait.
Defined.

(** Mode 5 is not one of the four modes: bit 26 of CFG2 comes from it. *)
Lemma spi_prepare_mode_unmasked_witness :
  (0 <= 5 < 256)
  /\ (0 <= SPI_CFG2_CPHA_Pos (DeviceHeader := stm32h743xx) <= 24)
  /\ ~ Z.shiftl 5 24 = documented_mode_bits (hdr := stm32h743xx) 5
  /\ exists i, 25 < i < 32
       /\ Z.testbit (cfg2_of_mode (hdr := stm32h743xx) 5) i = true.
Proof.
  assert (H0 : 0 <= 5 < 256) by lia.
  assert (H1 : 0 <= SPI_CFG2_CPHA_Pos (DeviceHeader := stm32h743xx) <= 24)
    by (cbn; lia).
  split; [exact H0|]. split; [exact H1|].
  destruct (spi_prepare_mode_unmasked (hdr := stm32h743xx) quiet_board 0
              (mk_spi_config SPI2 6 5) [] H0 H1 eq_refl)
    as (_ & _ & Hlayout & Hhigh).
  split.
  - intros Heq. apply Hlayout in Heq. cbn in Heq. lia.
  - destruct Hhigh as (i & Hi & _ & Hbit); [cbn; lia|].
    exists i. split; [exact Hi|exact Hbit].
Defined.

(** Mode 4 lands on the bit of SPI_CFG2_SSM, which is set anyway: on this
    header CFG2 gets the value it gets for mode 0. *)
Example cfg2_of_mode_4 :
  cfg2_of_mode (hdr := stm32h743xx) 4 = cfg2_of_mode (hdr := stm32h743xx) 0
  /\ cfg2_of_mode (hdr := stm32h743xx) 8 <> cfg2_of_mode (hdr := stm32h743xx) 0.
Proof. split; [reflexivity|discriminate]. Qed.

(** ** spi_transfer *)

(** Two bytes against the loop-back board: send, receive, send, receive,
    one read of SR for the end of the transfer, flags cleared, SPI
    disabled. *)
Example spi_transfer_loopback :
  spi_transfer (hdr := stm32h743xx) loopback_board 5
    (mk_spi_config SPI2 6 0) 1 2 [5; 6] []
  = Done [5; 6]
      [ Ewrite SPI2 CR1 4096; Ewrite SPI2 IFCR 4294967295;
        Eread SPI2 SR 4294967294;
        Eread SPI2 RXDR 6; Eread SPI2 SR 4294967295;
        Ewrite SPI2 TXDR 6; Eread SPI2 SR 4294967294;
        Eread SPI2 RXDR 5; Eread SPI2 SR 4294967295;
        Ewrite SPI2 TXDR 5; Eread SPI2 SR 4294967294;
        Ewrite SPI2 CR1 4609; Ewrite SPI2 CR1 4097; Ewrite SPI2 CR2 2 ].
Proof. reflexivity. Qed.

(** A length of 0: the start and stop writes, no pass of the loop. *)
Example spi_transfer_empty :
  spi_transfer (hdr := stm32h743xx) loopback_board 1
    (mk_spi_config SPI2 6 0) 1 0 [] []
  = Done []
      [ Ewrite SPI2 CR1 4096; Ewrite SPI2 IFCR 4294967295;
        Eread SPI2 SR 4294967294;
        Ewrite SPI2 CR1 4609; Ewrite SPI2 CR1 4097; Ewrite SPI2 CR2 0 ].
Proof. reflexivity. Qed.

(** A peripheral that never shows a flag: the call is still polling,
    however often it may poll. *)
Example spi_transfer_blocks :
  exists t, spi_transfer (hdr := stm32h743xx) quiet_board 50
              (mk_spi_config SPI2 6 0) 1 2 [5; 6] [] = Polling t.
Proof. eexists. vm_compute. reflexivity. Qed.

Lemma transfer_step_sends_witness :
  status (hdr := stm32h743xx) loopback_board SPI2 []
  = SPI_SR_TXP (DeviceHeader := stm32h743xx)
  /\ sends_next (hdr := stm32h743xx) loopback_board SPI2 1 2
       (xfer_start [5; 6]) [].
Proof.
  split; [reflexivity|].
  apply (transfer_step_sends (hdr := stm32h743xx) loopback_board SPI2 1 2
           (xfer_start [5; 6]) []);
    [reflexivity|vm_compute; lia|vm_compute; lia].
Defined.

(** C3 as stated fails.  Second pass of a two-byte exchange with the
    loop-back board: the first byte is in flight, SR shows both "transmit
    slot free" and "receive byte available", the send cursor (1) has not
    reached the length (2) and is one ahead of the receive cursor (0);
    the pass reads the byte back and sends nothing. *)
Lemma no_send_when_byte_available :
  let st := transfer_at (hdr := stm32h743xx) loopback_board 1 SPI2 1 2
              (xfer_start [5; 6]) [] in
  ~ sends_whenever_free (hdr := stm32h743xx) loopback_board SPI2 1 2
      (fst st) (snd st).
Proof.
  cbv zeta. intros H.
  destruct H as (s' & t' & Hs & Hw & _).
  - vm_compute. discriminate.
  - vm_compute. lia.
  - vm_compute. lia.
  - vm_compute in Hs. injection Hs as <- _.
    vm_compute in Hw. discriminate Hw.
Qed.

(** Nor is a byte sent when the send cursor is exactly [MAX_FIFO] ahead:
    after eight passes in which only "transmit slot free" shows, the
    ninth sends nothing. *)
Lemma no_send_when_fifo_full :
  let st := transfer_at (hdr := stm32h743xx) (steady_board 2) 8 SPI2 1 10
              (xfer_start (repeat 0 10)) [] in
  (wptr (fst st) = 8 /\ data (fst st) = 0)%nat
  /\ ~ sends_whenever_free (hdr := stm32h743xx) (steady_board 2) SPI2 1 10
         (fst st) (snd st).
Proof.
  cbv zeta. split; [split; reflexivity|]. intros H.
  destruct H as (s' & t' & Hs & Hw & _).
  - vm_compute. discriminate.
  - vm_compute. lia.
  - vm_compute. lia.
  - vm_compute in Hs. injection Hs as <- _.
    vm_compute in Hw. discriminate Hw.
Qed.

Lemma transfer_cursors_witness :
  in_flight SPI2 [] = false
  /\ cursors_in_step
       (fst (transfer_at (hdr := stm32h743xx) loopback_board 3 SPI2 1 2
               (xfer_start [5; 6]) [])).
Proof.
  split; [reflexivity|]. unfold cursors_in_step.
  destruct (transfer_cursors (hdr := stm32h743xx) loopback_board SPI2 1 2
              [5; 6] [] 3) as [[Hfifo _] Hlag].
  split; [|exact Hfifo].
  apply Hlag; [apply echo_board_causal|reflexivity].
Defined.

(** C2 as stated fails.  A peripheral that shows "receive byte available"
    at every read of SR, length 2: the first pass sends nothing and reads
    a byte, so the second pass starts with the send cursor (0) behind the
    receive cursor (1). *)
Lemma send_cursor_lags :
  ~ cursors_in_step
      (fst (transfer_at (hdr := stm32h743xx) (steady_board 1) 1 SPI2 1 2
              (xfer_start [5; 6]) [])).
Proof.
  unfold cursors_in_step. vm_compute. intros [H _]. lia.
Qed.

Lemma steady_board_ready (p : SPI_TypeDef) :
  always_ready (hdr := stm32h743xx) (steady_board 4294967295) p.
Proof. intros t. split; vm_compute; discriminate. Qed.

Lemma spi_transfer_no_receive_witness :
  exists t',
    spi_transfer (hdr := stm32h743xx) (steady_board 4294967295) 3
      (mk_spi_config SPI2 6 0) 0 2 [5; 6] []
    = Done [5; 6] t'.
Proof.
  pose proof (proj2 (proj2 (spi_transfer_no_receive (hdr := stm32h743xx)
                              (steady_board 4294967295) 3
                              (mk_spi_config SPI2 6 0) 2 [5; 6] [])))
    as Hdone.
  apply Hdone.
  - apply steady_board_ready.
  - lia.
Defined.

Lemma spi_transfer_echo_witness :
  1 <> 0
  /\ Forall is_byte [5; 6]
  /\ (2 <= length [5; 6])%nat
  /\ exists t',
       spi_transfer (hdr := stm32h743xx) loopback_board 5
         (mk_spi_config SPI2 6 0) 1 2 [5; 6] []
       = Done [5; 6] t'.
Proof.
  assert (H0 : 1 <> 0) by discriminate.
  assert (H1 : Forall is_byte [5; 6])
    by (repeat constructor; unfold is_byte; lia).
  assert (H2 : (2 <= length [5; 6])%nat) by (cbn; lia).
  split; [exact H0|]. split; [exact H1|]. split; [exact H2|].
  pose proof (proj2 (spi_transfer_echo 5 (mk_spi_config SPI2 6 0) 1 2
                       [5; 6] H0 H1 H2)) as Hdone.
  apply Hdone. lia.
Defined.

(** With a peripheral that shows "receive byte available" before anything
    was sent (which a loop-back does not), the byte read back is stored
    over a byte that is still to be sent. *)
Example spi_transfer_premature_receive :
  fst (transfer_at (hdr := stm32h743xx) (steady_board 1) 1 SPI2 1 2
         (xfer_start [5; 6]) [])
  = mk_xfer 0 1 [0; 6].
Proof. vm_compute. reflexivity. Qed.

(** * Further properties *)

(** ** spi_setup: the divisor and the clock *)

Lemma shiftr_le_mono (x y n : Z) : 0 <= n -> x <= y -> Z.shiftr x n <= Z.shiftr y n.
Proof.
  intros Hn Hxy. rewrite !Z.shiftr_div_pow2 by exact Hn.
  apply Z.div_le_mono; [apply Z.pow_pos_nonneg; lia|exact Hxy].
Qed.

(** A slower input clock or a higher requested rate never gives a larger
    divisor. *)
Lemma div_loop_monotone (pclk1 pclk2 rate1 rate2 d1 d2 : Z) :
  pclk1 <= pclk2 -> rate2 <= rate1 ->
  div_loop 7 pclk1 rate1 0 = Some d1 ->
  div_loop 7 pclk2 rate2 0 = Some d2 ->
  d1 <= d2.
Proof.
  intros Hpclk Hrate H1 H2.
  destruct (div_loop_scan pclk1 rate1 7 0) as (d1' & E1 & R1 & B1 & _);
    [lia|lia|].
  destruct (div_loop_scan pclk2 rate2 7 0) as (d2' & E2 & R2 & _ & A2);
    [lia|lia|].
  assert (d1' = d1) as -> by congruence.
  assert (d2' = d2) as -> by congruence.
  destruct (Z.le_gt_cases d1 d2) as [Hle|Hgt]; [exact Hle|].
  exfalso.
  specialize (B1 d2 ltac:(lia)). specialize (A2 ltac:(lia)).
  pose proof (shiftr_le_mono pclk1 pclk2 (d2 + 1) ltac:(lia) Hpclk). lia.
Qed.

Section SetupMore.

Context (v : build).

(** A call that returns was made for a bus of the table. *)
Lemma spi_setup_done_in_range (b : board) (bus mode rate : Z) (t t' : trace)
    (cfg : spi_config) :
  0 <= bus ->
  spi_setup v b bus mode rate t = Done cfg t' ->
  exists info, spi_bus v !! Z.to_nat bus = Some info
    /\ 0 <= bus < Z.of_nat (length (spi_bus v)).
Proof.
  intros Hbus. unfold spi_setup.
  destruct (Z.leb_spec (Z.of_nat (length (spi_bus v))) bus) as [Hge|Hlt];
    [discriminate|].
  intros _. destruct (spi_bus_lookup v bus) as (info & Hinfo); [lia|].
  exists info. split; [exact Hinfo|lia].
Qed.

(** X1: the divisor follows the request: of two [spi_setup] calls for the
    same bus, the one with the lower requested rate gets a divisor that
    is at least as large, and so does the one on the board whose input
    clock is faster. *)
Theorem spi_setup_divisor_monotone (b1 b2 : board) (bus mode1 mode2 : Z)
    (rate1 rate2 : Z) (info : spi_info) (t1 t2 t1' t2' : trace)
    (cfg1 cfg2 : spi_config) :
  0 <= bus ->
  spi_bus v !! Z.to_nat bus = Some info ->
  pclock_frequency b1 (spi info) <= pclock_frequency b2 (spi info) ->
  rate2 <= rate1 ->
  spi_setup v b1 bus mode1 rate1 t1 = Done cfg1 t1' ->
  spi_setup v b2 bus mode2 rate2 t2 = Done cfg2 t2' ->
  cfg_div cfg1 <= cfg_div cfg2.
Proof.
  intros Hbus Hinfo Hpclk Hrate Hrun1 Hrun2.
  assert (Hin : 0 <= bus < Z.of_nat (length (spi_bus v)))
    by (apply lookup_lt_Some in Hinfo; lia).
  destruct (spi_setup_in_range v b1 bus mode1 rate1 info t1 Hin Hinfo)
    as (d1 & en1 & _ & Hd1 & E1).
  destruct (spi_setup_in_range v b2 bus mode2 rate2 info t2 Hin Hinfo)
    as (d2 & en2 & _ & Hd2 & E2).
  rewrite E1 in Hrun1. rewrite E2 in Hrun2.
  injection Hrun1 as <- _. injection Hrun2 as <- _. cbn [cfg_div].
  exact (div_loop_monotone _ _ _ _ _ _ Hpclk Hrate Hd1 Hd2).
Qed.

Lemma clock_on_later (b : board) (p : SPI_TypeDef) (extra t : trace) :
  clock_on b p t -> clock_on b p (extra ++ t).
Proof.
  unfold clock_on, is_enabled_pclock. intros [= Hon]. f_equal.
  rewrite existsb_app. apply orb_true_iff in Hon as [ -> | -> ]; [reflexivity|].
  now rewrite !orb_true_r.
Qed.

(** X2: when [spi_setup] returns, the clock of the peripheral of the
    configuration is on and stays on whatever the driver does next, and
    the call has either logged nothing or the activation of the bus's
    row: it writes no SPI register and reads no timer. *)
Theorem spi_setup_leaves_clock_on (b : board) (bus mode rate : Z)
    (t t' extra : trace) (cfg : spi_config) :
  0 <= bus ->
  spi_setup v b bus mode rate t = Done cfg t' ->
  clock_on b (cfg_spi cfg) (extra ++ t')
  /\ exists info, spi_bus v !! Z.to_nat bus = Some info
       /\ cfg_spi cfg = spi info
       /\ (t' = t \/ t' = activation info ++ t).
Proof.
  intros Hbus Hrun.
  destruct (spi_setup_done_in_range b bus mode rate t t' cfg Hbus Hrun)
    as (info & Hinfo & Hin).
  destruct (spi_setup_in_range v b bus mode rate info t Hin Hinfo)
    as (d & en & Hen & _ & E).
  rewrite E in Hrun. injection Hrun as <- <-. cbn [cfg_spi].
  split.
  - apply clock_on_later. destruct en.
    + exact Hen.
    + exact (is_enabled_after_activation b info [] t).
  - exists info. split; [exact Hinfo|]. split; [reflexivity|].
    destruct en; auto.
Qed.

End SetupMore.

Lemma spi_setup_divisor_monotone_witness :
  let info := mk_spi_info SPI2 (GPIO "B" 14) (GPIO "B" 15) (GPIO "B" 13)
                (GPIO_FUNCTION 5) in
  let cfg1 := mk_spi_config SPI2 4 0 in
  let cfg2 := mk_spi_config SPI2 6 0 in
  spi_setup stm32h743 quiet_board 0 0 4000000 [] = Done cfg1 (activation info)
  /\ spi_setup stm32h743 quiet_board 0 0 1000000 []
     = Done cfg2 (activation info)
  /\ cfg_div cfg1 <= cfg_div cfg2.
Proof.
  cbv zeta.
  assert (H1 : spi_setup stm32h743 quiet_board 0 0 4000000 []
               = Done (mk_spi_config SPI2 4 0)
                   (activation
                      (mk_spi_info SPI2 (GPIO "B" 14) (GPIO "B" 15)
                         (GPIO "B" 13) (GPIO_FUNCTION 5))))
    by (vm_compute; reflexivity).
  assert (H2 : spi_setup stm32h743 quiet_board 0 0 1000000 []
               = Done (mk_spi_config SPI2 6 0)
                   (activation
                      (mk_spi_info SPI2 (GPIO "B" 14) (GPIO "B" 15)
                         (GPIO "B" 13) (GPIO_FUNCTION 5))))
    by (vm_compute; reflexivity).
  split; [exact H1|]. split; [exact H2|].
  apply (spi_setup_divisor_monotone stm32h743 quiet_board quiet_board 0 0 0
           4000000 1000000 _ [] [] _ _ _ _ ltac:(lia) eq_refl
           ltac:(cbn; lia) ltac:(lia) H1 H2).
Defined.

Lemma spi_setup_leaves_clock_on_witness :
  clock_on quiet_board SPI1
    (activation (mk_spi_info SPI1 (GPIO "A" 6) (GPIO "A" 7) (GPIO "A" 5)
                   (GPIO_FUNCTION 5))).
Proof.
  assert (Hrun : spi_setup stm32h743 quiet_board 1 0 1000000 []
                 = Done (mk_spi_config SPI1 6 0)
                     (activation
                        (mk_spi_info SPI1 (GPIO "A" 6) (GPIO "A" 7)
                           (GPIO "A" 5) (GPIO_FUNCTION 5))))
    by (vm_compute; reflexivity).
  pose proof (spi_setup_leaves_clock_on stm32h743 quiet_board 1 0 1000000
                [] _ [] (mk_spi_config SPI1 6 0) ltac:(lia) Hrun) as H.
  exact (proj1 H).
Defined.

(** ** The registered names, the table and spi_setup *)

Lemma number_from_values (ds : list (string * string)) :
  forall c : nat,
    map reg_value (number_from c ds) = seq c (length ds).
Proof.
  induction ds as [|[name pins] ds IH]; intros c; [reflexivity|].
  cbn [number_from map length seq reg_value]. now rewrite IH.
Qed.

Lemma number_from_length (ds : list (string * string)) (c : nat) :
  length (number_from c ds) = length ds.
Proof.
  rewrite <- (length_map reg_value), number_from_values. apply length_seq.
Qed.

(** The table has a row for every registration. *)
Lemma registrations_fit_table (v : build) :
  (length (registrations v) <= length (spi_bus v))%nat.
Proof.
  unfold registrations. rewrite number_from_length.
  destruct v as [[] [] [] [] [] []]; cbn; lia.
Qed.

Lemma registrations_values (v : build) :
  map reg_value (registrations v) = seq 0 (length (registrations v)).
Proof.
  unfold registrations. rewrite number_from_length.
  apply number_from_values.
Qed.

(** X3: in every build variant the registered names are pairwise
    different and their enumeration values are 0, 1, 2, ... in the order
    of the file, so a name stands for one value and every value up to the
    number of registrations is taken. *)
Theorem registrations_unambiguous (v : build) :
  NoDup (map reg_name (registrations v))
  /\ map reg_value (registrations v) = seq 0 (length (registrations v)).
Proof.
  split.
  - destruct v as [[] [] [] [] [] []];
      apply (bool_decide_unpack _); vm_compute; exact I.
  - apply registrations_values.
Qed.

(** X4: in every build variant every registered enumeration value is a
    bus index [spi_setup] accepts: called with it, [spi_setup] does not
    shut down but returns a configuration. *)
Theorem spi_setup_accepts_registered (v : build) (b : board)
    (r : bus_registration) (mode rate : Z) (t : trace) :
  In r (registrations v) ->
  exists cfg t',
    spi_setup v b (Z.of_nat (reg_value r)) mode rate t = Done cfg t'.
Proof.
  intros Hr.
  assert (Hlt : (reg_value r < length (registrations v))%nat).
  { apply (in_map reg_value) in Hr.
    rewrite registrations_values in Hr.
    apply in_seq in Hr. lia. }
  pose proof (registrations_fit_table v) as Hfit.
  assert (Hin : 0 <= Z.of_nat (reg_value r) < Z.of_nat (length (spi_bus v)))
    by lia.
  destruct (spi_bus_lookup v _ Hin) as (info & Hinfo).
  destruct (spi_setup_in_range v b _ mode rate info t Hin Hinfo)
    as (d & en & _ & _ & E).
  eexists _, _. exact E.
Qed.

(** X5: the row a registered bus is described by.  In every build variant
    the bus registered with the value [i] has the peripheral and the pins
    (in the order MISO, MOSI, SCK of its BUS_PINS string) of the table
    row [row_of_value v i]: row [i] itself when port I is defined or the
    value is below the row on port I, the row after it otherwise.  In that
    last case row [i], the one [spi_setup] takes for the value, has other
    pins than the string names. *)
Theorem registered_bus_row (v : build) (i : nat) (r : bus_registration) :
  registration_of v i = Some r ->
  (exists info, spi_bus v !! row_of_value v i = Some info
     /\ periph_of_name (reg_name r) = Some (spi info)
     /\ reg_pins r = pins_string (in_out_clock info))
  /\ (row_of_value v i <> i ->
      exists info', spi_bus v !! i = Some info'
        /\ reg_pins r <> pins_string (in_out_clock info')).
Proof.
  destruct v as [[] [] [] [] [] []]; intros H;
    do 11 (destruct i as [|i];
           [ vm_compute in H;
             first [ discriminate H
                   | injection H as <-; split;
                     [ eexists; split; [reflexivity|]; split; reflexivity
                     | intros Hne;
                       first [ exfalso; apply Hne; reflexivity
                             | eexists; split; [reflexivity|];
                               vm_compute; discriminate ] ] ] | ]);
    vm_compute in H; discriminate H.
Qed.

Lemma spi_setup_accepts_registered_witness :
  exists cfg t',
    spi_setup stm32h723 quiet_board 8 0 1000000 [] = Done cfg t'.
Proof.
  apply (spi_setup_accepts_registered stm32h723 quiet_board
           {| reg_name := "spi6"; reg_value := 8;
              reg_pins := "PG12,PG14,PG13" |} 0 1000000 []).
  vm_compute. tauto.
Defined.

(** Without port I, "spi5" is registered as 6; its pins are those of row
    7, and [spi_setup] called with 6 takes row 6. *)
Lemma registered_bus_row_witness :
  row_of_value stm32h723 6 = 7%nat
  /\ exists info', spi_bus stm32h723 !! 6%nat = Some info'
       /\ "PF8,PF9,PF7" <> pins_string (in_out_clock info').
Proof.
  split; [reflexivity|].
  exact (proj2 (registered_bus_row stm32h723 6
                  {| reg_name := "spi5"; reg_value := 6;
                     reg_pins := "PF8,PF9,PF7" |} eq_refl)
               ltac:(vm_compute; discriminate)).
Defined.

(** ** spi_prepare: what the two registers are loaded with *)

Lemma testbit_small (x i n : Z) :
  0 <= x < 2 ^ n -> n <= i -> Z.testbit x i = false.
Proof.
  intros Hx Hi.
  destruct (Z.eq_dec x 0) as [->|Hne]; [apply Z.bits_0|].
  apply Z.bits_above_log2; [lia|].
  assert (Z.log2 x < n) by (apply Z.log2_lt_pow2; lia). lia.
Qed.

(** Two words agree under a one-bit mask exactly when they agree on the
    bit. *)
Lemma land_bit_eq (x y k : Z) :
  0 <= k ->
  Z.land x (Z.shiftl 1 k) = Z.land y (Z.shiftl 1 k)
  <-> Z.testbit x k = Z.testbit y k.
Proof.
  intros Hk. rewrite Z.shiftl_1_l. split.
  - intros H. apply (f_equal (fun z => Z.testbit z k)) in H.
    rewrite !Z.land_spec, Z.pow2_bits_true in H by exact Hk.
    now rewrite !andb_true_r in H.
  - intros H. apply Z.bits_inj'. intros i Hi.
    rewrite !Z.land_spec, Z.pow2_bits_eqb by exact Hk.
    destruct (Z.eqb_spec k i) as [->|_]; [now rewrite H|].
    now rewrite !andb_false_r.
Qed.

Section PrepareMore.

Context {hdr : DeviceHeader} (b : board).

(** Whatever its outcome, [spi_prepare] has loaded the two registers and
    then only read the timer. *)
Lemma spi_prepare_final_trace (fuel : nat) (config : spi_config) (t : trace) :
  exists polls,
    final_trace (spi_prepare b fuel config t)
    = map Etimer_read polls ++ loaded b config t.
Proof.
  rewrite spi_prepare_unfold. destruct (negb _).
  - pose proof (settle_wait_outcome b fuel (settle_end b config t)
                  (prepared b config t)) as Hw.
    destruct (settle_wait b fuel (settle_end b config t)
                (prepared b config t)) as [[] t'|msg t'|t'].
    + destruct Hw as (polls & last & -> & _).
      exists (last :: polls ++ [settle_start b config t]).
      cbn [final_trace map app]. now rewrite map_app, <- app_assoc.
    + contradiction.
    + destruct Hw as (polls & -> & _).
      exists (polls ++ [settle_start b config t]).
      cbn [final_trace]. now rewrite map_app, <- app_assoc.
  - exists [settle_start b config t]. reflexivity.
Qed.

(** The divisor and the frame size can be read back from the value loaded
    into CFG1. *)
Lemma cfg1_of_div_fields (div : Z) :
  cfg1_layout -> 0 <= div <= 7 ->
  Z.land (Z.shiftr (cfg1_of_div div) SPI_CFG1_MBR_Pos) 7 = div
  /\ Z.land (Z.shiftr (cfg1_of_div div) SPI_CFG1_DSIZE_Pos) 31 = 7.
Proof.
  intros (Hs & Hsm & Hm) Hdiv.
  assert (Hbit : forall i, 0 <= i < 32 ->
             Z.testbit (cfg1_of_div div) i
             = Z.testbit div (i - SPI_CFG1_MBR_Pos)
               || Z.testbit 7 (i - SPI_CFG1_DSIZE_Pos)).
  { intros i Hi. unfold cfg1_of_div, u32.
    rewrite Z.mod_pow2_bits_low, Z.lor_spec, Z.mod_pow2_bits_low by lia.
    now rewrite !Z.shiftl_spec by lia. }
  split; apply Z.bits_inj'; intros i Hi;
    rewrite Z.land_spec, Z.shiftr_spec by lia.
  - change 7 with (Z.ones 3) at 1.
    destruct (Z.lt_ge_cases i 3) as [Hlow|Hhigh].
    + rewrite Z.ones_spec_low, andb_true_r, Hbit by lia.
      replace (i + SPI_CFG1_MBR_Pos - SPI_CFG1_MBR_Pos) with i by lia.
      rewrite (testbit_small 7 _ 3) by lia. apply orb_false_r.
    + rewrite Z.ones_spec_high, andb_false_r by lia.
      symmetry. apply (testbit_small div i 3); lia.
  - change 31 with (Z.ones 5).
    destruct (Z.lt_ge_cases i 5) as [Hlow|Hhigh].
    + rewrite Z.ones_spec_low, andb_true_r, Hbit by lia.
      rewrite (Z.testbit_neg_r div) by lia.
      now replace (i + SPI_CFG1_DSIZE_Pos - SPI_CFG1_DSIZE_Pos) with i by lia.
    + rewrite Z.ones_spec_high, andb_false_r by lia.
      symmetry. apply (testbit_small 7 i 3); lia.
Qed.

(** Bits 0 and 1 of the mode are the phase and the polarity bit of the
    value loaded into CFG2. *)
Lemma cfg2_of_mode_bit (mode i : Z) :
  cfg2_layout -> 0 <= i <= 1 ->
  Z.testbit (cfg2_of_mode mode) (SPI_CFG2_CPHA_Pos + i) = Z.testbit mode i.
Proof.
  intros (Hpos & Hfit & _ & Hfree) Hi.
  assert (Hj : SPI_CFG2_CPHA_Pos <= SPI_CFG2_CPHA_Pos + i
               <= SPI_CFG2_CPHA_Pos + 1) by lia.
  apply Hfree in Hj as Hclear. clear Hfree. rename Hclear into Hfree.
  unfold cfg2_fixed in Hfree. rewrite !Z.lor_spec in Hfree.
  apply orb_false_iff in Hfree as [Hfree Hssoe].
  apply orb_false_iff in Hfree as [Hfree Hafcntr].
  apply orb_false_iff in Hfree as [Hmaster Hssm].
  unfold cfg2_of_mode, u32.
  rewrite Z.mod_pow2_bits_low, !Z.lor_spec, Z.mod_pow2_bits_low by lia.
  rewrite Z.shiftl_spec, Hmaster, Hssm, Hafcntr, Hssoe, !orb_false_r by lia.
  f_equal. lia.
Qed.

(** X6: the frequency [spi_prepare] loads.  For a divisor of 0 to 7 in
    the configuration, and with the frame-size field of CFG1 below its
    divisor field, the call loads CFG1 before anything else (then CFG2,
    then it only reads the timer), and the value loaded has the divisor
    in the divisor field and 7 (frames of 8 bits) in the frame-size
    field. *)
Theorem spi_prepare_loads_divisor (fuel : nat) (config : spi_config)
    (t : trace) :
  cfg1_layout ->
  0 <= cfg_div config <= 7 ->
  exists polls old cfg1,
    final_trace (spi_prepare b fuel config t)
    = map Etimer_read polls
      ++ Ewrite (cfg_spi config) CFG2 (cfg2_of_mode (u32 (cfg_mode config)))
      :: Eread (cfg_spi config) CFG2 old
      :: Ewrite (cfg_spi config) CFG1 cfg1 :: t
    /\ Z.land (Z.shiftr cfg1 SPI_CFG1_MBR_Pos) 7 = cfg_div config
    /\ Z.land (Z.shiftr cfg1 SPI_CFG1_DSIZE_Pos) 31 = 7.
Proof.
  intros Hlayout Hdiv.
  destruct (spi_prepare_final_trace fuel config t) as (polls & Htrace).
  exists polls. eexists _, _. split; [exact Htrace|].
  rewrite u32_small by lia. now apply cfg1_of_div_fields.
Qed.

(** X7: the mode [spi_prepare] loads.  With the polarity bit above the
    phase bit and both clear of the fixed bits, the phase and polarity
    bits of the value loaded into CFG2 are bits 0 and 1 of the mode, for
    every mode of 0 to 255: a mode of 0 to 3 can be read back from the
    two bits. *)
Theorem spi_prepare_loads_mode (fuel : nat) (config : spi_config)
    (t : trace) :
  cfg2_layout ->
  0 <= cfg_mode config < 256 ->
  exists polls cfg2,
    final_trace (spi_prepare b fuel config t)
    = map Etimer_read polls ++ loaded b config t
    /\ hd_error (loaded b config t)
       = Some (Ewrite (cfg_spi config) CFG2 cfg2)
    /\ Z.land (Z.shiftr cfg2 SPI_CFG2_CPHA_Pos) 3
       = Z.land (cfg_mode config) 3.
Proof.
  intros Hlayout Hmode.
  destruct (spi_prepare_final_trace fuel config t) as (polls & Htrace).
  exists polls. eexists. split; [exact Htrace|]. split; [reflexivity|].
  rewrite u32_small by lia.
  destruct Hlayout as (Hpos & Hrest).
  apply Z.bits_inj'. intros i Hi.
  rewrite !Z.land_spec, Z.shiftr_spec by lia. change 3 with (Z.ones 2).
  destruct (Z.lt_ge_cases i 2) as [Hlow|Hhigh].
  - rewrite Z.ones_spec_low, !andb_true_r by lia.
    rewrite Z.add_comm. apply cfg2_of_mode_bit; [split; assumption|lia].
  - now rewrite Z.ones_spec_high, !andb_false_r by lia.
Qed.

(** X8: when [spi_prepare] waits, in terms of the mode.  On a peripheral
    whose CFG2 holds what was written, a call that follows a returned
    call on the same peripheral returns without polling the timer if bit
    1 of its mode is bit 1 of the earlier call's mode, and otherwise
    polls the timer until the settle delay is over. *)
Theorem spi_prepare_waits_on_mode_bit (fuel0 fuel : nat)
    (config0 config : spi_config) (t0 t : trace) :
  cfg2_layout ->
  holds_written b (cfg_spi config) CFG2 ->
  cfg_spi config0 = cfg_spi config ->
  0 <= cfg_mode config0 < 256 ->
  0 <= cfg_mode config < 256 ->
  spi_prepare b fuel0 config0 t0 = Done tt t ->
  (Z.testbit (cfg_mode config0) 1 = Z.testbit (cfg_mode config) 1 ->
   spi_prepare b fuel config t = Done tt (prepared b config t))
  /\ (Z.testbit (cfg_mode config0) 1 <> Z.testbit (cfg_mode config) 1 ->
      match spi_prepare b fuel config t with
      | Done _ t' =>
          waited_until b (settle_end b config t) (prepared b config t) t'
      | Halted _ _ => False
      | Polling t' =>
          exists polls, t' = map Etimer_read polls ++ prepared b config t
            /\ length polls = fuel
            /\ Forall (fun x => timer_is_before b x (settle_end b config t)
                                = true) polls
      end).
Proof.
  intros Hlayout Hmem Hspi Hmode0 Hmode Hprev.
  assert (Hold : cfg2_before b config t
                 = cfg2_of_mode (u32 (cfg_mode config0))).
  { apply (cfg2_before_next b fuel0 config0 config t0 t); auto.
    now rewrite Hspi. }
  assert (Hpol : Z.land (Z.lxor (cfg2_before b config t)
                           (cfg2_of_mode (u32 (cfg_mode config))))
                        SPI_CFG2_CPOL_Msk = 0
                 <-> Z.testbit (cfg_mode config0) 1
                     = Z.testbit (cfg_mode config) 1).
  { rewrite masked_diff, Hold, !u32_small by lia.
    destruct Hlayout as (Hpos & Hfit & Hmsk & Hfree) eqn:E. clear E.
    rewrite Hmsk, land_bit_eq by lia.
    rewrite !cfg2_of_mode_bit by (repeat split; auto; lia).
    reflexivity. }
  rewrite spi_prepare_unfold. split.
  - intros Hsame. apply Hpol in Hsame. now rewrite Hsame.
  - intros Hdiff.
    destruct (Z.eqb_spec (Z.land (Z.lxor (cfg2_before b config t)
                                    (cfg2_of_mode (u32 (cfg_mode config))))
                                 SPI_CFG2_CPOL_Msk) 0) as [H0|_].
    + apply Hpol in H0. contradiction.
    + cbn [negb]. apply settle_wait_outcome.
Qed.

End PrepareMore.

(** ** The data registers in the log *)

Lemma reads_cons (p : SPI_TypeDef) (r : spi_reg) (e : event) (t : trace) :
  reads p r (e :: t)
  = reads p r t
    ++ match e with
       | Eread p' r' x =>
           if bool_decide (p' = p) && bool_decide (r' = r) then [x] else []
       | _ => []
       end.
Proof.
  unfold reads. cbn [rev]. rewrite omap_app. f_equal.
  destruct e as [| | |p' r' x|]; try reflexivity.
  cbn. now destruct (bool_decide (p' = p) && bool_decide (r' = r)).
Qed.

Lemma reads_app (p : SPI_TypeDef) (r : spi_reg) (t1 t2 : trace) :
  reads p r (t1 ++ t2) = reads p r t2 ++ reads p r t1.
Proof. unfold reads. now rewrite rev_app_distr, omap_app. Qed.

Lemma written_app (p : SPI_TypeDef) (r : spi_reg) (t1 t2 : trace) :
  written p r (t1 ++ t2) = written p r t2 ++ written p r t1.
Proof. unfold written. now rewrite rev_app_distr, omap_app. Qed.

Lemma reads_length (p : SPI_TypeDef) (r : spi_reg) (t : trace) :
  length (reads p r t) = count_access p r false t.
Proof.
  induction t as [|e t IH]; [reflexivity|].
  rewrite reads_cons, count_access_cons, length_app, IH.
  destruct e as [| | |p' r' x|]; cbn; try lia.
  destruct (bool_decide (p' = p)), (bool_decide (r' = r)); cbn; lia.
Qed.

Lemma reads_nil (p : SPI_TypeDef) (r : spi_reg) : reads p r [] = [].
Proof. reflexivity. Qed.

Lemma written_nil (p : SPI_TypeDef) (r : spi_reg) : written p r [] = [].
Proof. reflexivity. Qed.

(** What a pass logs, seen from the data registers. *)
Lemma pass_events_data (p : SPI_TypeDef) (sr : Z) (sent rcvd : option Z) :
  reads p RXDR (pass_events p sr sent rcvd) = option_list rcvd
  /\ written p TXDR (pass_events p sr sent rcvd) = option_list sent
  /\ Forall (fun e => is_exchange p e = true) (pass_events p sr sent rcvd).
Proof.
  unfold pass_events.
  destruct sent as [y|], rcvd as [x|];
    cbn -[reads written is_exchange];
    rewrite ?reads_cons, ?written_cons, ?reads_nil, ?written_nil;
    rewrite ?(bool_decide_eq_true_2 (p = p)) by reflexivity;
    rewrite ?(bool_decide_eq_true_2 (RXDR = RXDR)) by reflexivity;
    rewrite ?(bool_decide_eq_true_2 (TXDR = TXDR)) by reflexivity;
    rewrite ?(bool_decide_eq_false_2 (SR = RXDR)) by discriminate;
    rewrite ?(bool_decide_eq_false_2 (SR = TXDR)) by discriminate;
    cbn [andb app];
    (split; [reflexivity|split; [reflexivity|]]);
    repeat constructor; cbn [is_exchange];
    rewrite ?(bool_decide_eq_true_2 (p = p)) by reflexivity;
    reflexivity.
Qed.

(** Events that are no access of the exchange do not show in the data
    registers, and neither do reads of SR. *)
Lemma started_data {hdr : DeviceHeader} (config : spi_config) (len : nat)
    (t : trace) :
  reads (cfg_spi config) RXDR (started config len t)
  = reads (cfg_spi config) RXDR t
  /\ written (cfg_spi config) TXDR (started config len t)
     = written (cfg_spi config) TXDR t.
Proof.
  unfold started. rewrite !reads_cons, !written_cons.
  rewrite !(bool_decide_eq_false_2 (CR1 = TXDR)) by discriminate.
  rewrite !(bool_decide_eq_false_2 (CR2 = TXDR)) by discriminate.
  rewrite !andb_false_r, !app_nil_r. split; reflexivity.
Qed.

Lemma stopped_data {hdr : DeviceHeader} (config : spi_config) (t : trace) :
  reads (cfg_spi config) RXDR (stopped config ++ t)
  = reads (cfg_spi config) RXDR t
  /\ written (cfg_spi config) TXDR (stopped config ++ t)
     = written (cfg_spi config) TXDR t.
Proof.
  unfold stopped. cbn [app]. rewrite !reads_cons, !written_cons.
  rewrite !(bool_decide_eq_false_2 (CR1 = TXDR)) by discriminate.
  rewrite !(bool_decide_eq_false_2 (IFCR = TXDR)) by discriminate.
  rewrite !andb_false_r, !app_nil_r. split; reflexivity.
Qed.

Lemma status_reads_data (p : SPI_TypeDef) (polls : list Z) (t : trace) :
  reads p RXDR (map (Eread p SR) polls ++ t) = reads p RXDR t
  /\ written p TXDR (map (Eread p SR) polls ++ t) = written p TXDR t
  /\ Forall (fun e => is_exchange p e = true) (map (Eread p SR) polls).
Proof.
  induction polls as [|x polls (IHr & IHw & IHe)];
    [repeat split; constructor|].
  cbn [map app]. rewrite reads_cons, written_cons, IHr, IHw.
  rewrite (bool_decide_eq_false_2 (SR = RXDR)) by discriminate.
  rewrite andb_false_r, !app_nil_r. repeat split.
  constructor; [|exact IHe]. cbn.
  now rewrite bool_decide_eq_true_2 by reflexivity.
Qed.

(** ** spi_transfer: the exchange, on every board *)

Section Exchange.

Context {hdr : DeviceHeader} (b : board).
Variables (spi : SPI_TypeDef) (receive_data : Z) (len : nat).

(** A pass of the loop by cases: whether a byte is sent, whether one is
    received, and what becomes of the cursors, the buffer and the log. *)
Lemma transfer_step_cases (s s' : xfer) (t t' : trace) :
  transfer_step b spi receive_data len s t = Done s' t' ->
  exists (send recv : bool) (rdata : Z),
    may_send (status b spi t) len s = send
    /\ negb (Z.land (status b spi t) SPI_SR_RXP =? 0) = recv
    /\ rdata = u8 (reg_read b spi RXDR
                     (option_list
                        (Ewrite spi TXDR
                           <$> (if send then Some (outbound s) else None))
                      ++ Eread spi SR (u32 (reg_read b spi SR t)) :: t))
    /\ wptr s' = (if send then S (wptr s) else wptr s)
    /\ data s' = (if recv then S (data s) else data s)
    /\ buf s' = (if recv && negb (receive_data =? 0)
                 then <[data s := rdata]> (buf s) else buf s)
    /\ t' = pass_events spi (u32 (reg_read b spi SR t))
              (if send then Some (outbound s) else None)
              (if recv then Some rdata else None) ++ t.
Proof.
  rewrite transfer_step_eq. cbv zeta.
  destruct (may_send (status b spi t) len s) eqn:Hsend;
    destruct (Z.land (status b spi t) SPI_SR_RXP =? 0) eqn:Hrxp;
    intros [= <- <-];
    eexists _, _, _; (split; [reflexivity|]); (split; [reflexivity|]);
    (split; [reflexivity|]); cbn [negb wptr data buf andb];
    repeat split; destruct (negb (receive_data =? 0)); reflexivity.
Qed.

Lemma may_send_bounds (sr : Z) (s : xfer) :
  may_send sr len s = true ->
  sr = SPI_SR_TXP /\ (wptr s < len)%nat /\ (wptr s < data s + MAX_FIFO)%nat.
Proof.
  unfold may_send. intros H.
  apply andb_prop in H as [H Hfifo]. apply andb_prop in H as [Hsr Hlen].
  apply Z.eqb_eq in Hsr. apply Nat.ltb_lt in Hlen, Hfifo. auto.
Qed.

Variables (buffer : list Z) (t0 : trace).

Lemma exchange_inv_start : exchange_inv spi len buffer t0 (xfer_start buffer) t0.
Proof.
  exists []. unfold xfer_start, MAX_FIFO. cbn.
  repeat split; try lia. constructor.
Qed.

Lemma exchange_step (s s' : xfer) (t t' : trace) :
  exchange_inv spi len buffer t0 s t -> (data s < len)%nat ->
  transfer_step b spi receive_data len s t = Done s' t' ->
  exchange_inv spi len buffer t0 s' t'.
Proof.
  intros (mid & -> & Hmid & Hr & Hw & Hwl & Hfifo & Hdl & Hlen & Hdrop) Hlt Hs.
  destruct (transfer_step_cases s s' _ t' Hs)
    as (send & recv & rdata & Hsend & Hrecv & _ & Hw' & Hd' & Hb' & ->).
  set (sr := u32 (reg_read b spi SR (mid ++ t0))) in *.
  set (sent := if send then Some (outbound s) else None) in *.
  set (rcvd := if recv then Some rdata else None) in *.
  destruct (pass_events_data spi sr sent rcvd) as (Hpr & Hpw & Hpe).
  exists (pass_events spi sr sent rcvd ++ mid).
  rewrite reads_app, written_app, !length_app, Hpr, Hpw, Hr, Hw, Hw', Hd', Hb'.
  assert (Hsb : send = true ->
                (wptr s < len)%nat /\ (wptr s < data s + MAX_FIFO)%nat).
  { intros ->. now apply may_send_bounds in Hsend. }
  split; [now rewrite app_assoc|].
  split; [apply Forall_app; split; assumption|].
  unfold sent, rcvd.
  destruct send, recv; cbn [option_list length andb];
    try (destruct (Hsb eq_refl) as [Hs1 Hs2]);
    repeat split; try lia;
    try (destruct (negb (receive_data =? 0)));
    rewrite ?length_insert; try assumption;
    try (rewrite drop_insert_lt by lia);
    try (rewrite <- (Nat.add_1_r (data s)), <- !drop_drop; now rewrite Hdrop);
    cbn; lia.
Qed.

(** With [receive_data], each byte read is stored at the receive cursor. *)
Lemma received_step (s s' : xfer) (t t' : trace) :
  receive_data <> 0 -> (len <= length buffer)%nat ->
  exchange_inv spi len buffer t0 s t ->
  received_inv spi t0 s t -> (data s < len)%nat ->
  transfer_step b spi receive_data len s t = Done s' t' ->
  received_inv spi t0 s' t'.
Proof.
  intros Hrd Hfits (mid' & Hmid' & _ & _ & _ & _ & _ & _ & Hlen & _)
    (mid & -> & Hreads) Hlt Hs.
  destruct (transfer_step_cases s s' _ t' Hs)
    as (send & recv & rdata & _ & _ & _ & _ & Hd' & Hb' & ->).
  set (sr := u32 (reg_read b spi SR (mid ++ t0))) in *.
  set (sent := if send then Some (outbound s) else None) in *.
  destruct (pass_events_data spi sr sent (if recv then Some rdata else None))
    as (Hpr & _ & _).
  exists (pass_events spi sr sent (if recv then Some rdata else None) ++ mid).
  split; [now rewrite app_assoc|].
  rewrite reads_app, Hpr, Hreads, Hd', Hb'.
  destruct (Z.eqb_spec receive_data 0) as [H0|_]; [contradiction|].
  destruct recv; cbn [andb negb option_list]; [|apply app_nil_r].
  rewrite (take_S_r _ _ rdata)
    by (apply list_lookup_insert_eq; lia).
  now rewrite take_insert_ge by lia.
Qed.

End Exchange.

Section ExchangeLoop.

Context {hdr : DeviceHeader} (b : board).
Variables (spi : SPI_TypeDef) (receive_data : Z) (len : nat).

(** A property every pass keeps holds when the loop is left and also
    where the loop is when its polls are used up. *)
Lemma transfer_loop_outcome (P : xfer -> trace -> Prop) :
  (forall s t s' t',
      P s t -> (data s < len)%nat ->
      transfer_step b spi receive_data len s t = Done s' t' -> P s' t') ->
  forall (fuel : nat) (s : xfer) (t : trace),
    P s t ->
    match transfer_loop b fuel spi receive_data len s t with
    | Done s' t' => P s' t' /\ (len <= data s')%nat
    | Halted _ _ => False
    | Polling t' => exists s', P s' t' /\ (data s' < len)%nat
    end.
Proof.
  intros Hstep. induction fuel as [|fuel IH]; intros s t HP;
    cbn [transfer_loop];
    destruct (Nat.ltb_spec (data s) len) as [Hlt|Hge]; eauto.
  destruct (transfer_step_done b spi receive_data len s t) as (s' & t' & Hs).
  rewrite (bind_Done _ _ _ _ _ Hs).
  apply IH. exact (Hstep s t s' t' HP Hlt Hs).
Qed.

(** The wait for the end of the transfer only reads SR, at least once. *)
Lemma eot_wait_trace (fuel : nat) :
  forall t : trace,
    match eot_wait b fuel spi t with
    | Done _ t' =>
        exists polls, polls <> [] /\ t' = map (Eread spi SR) polls ++ t
    | Halted _ _ => False
    | Polling t' =>
        exists polls, length polls = fuel
          /\ t' = map (Eread spi SR) polls ++ t
    end.
Proof.
  induction fuel as [|fuel IH]; intros t; cbn [eot_wait].
  - exists []. split; reflexivity.
  - cbv beta iota zeta delta [bind read ret].
    set (sr := u32 (reg_read b spi SR t)).
    destruct (Z.land sr SPI_SR_EOT =? 0).
    + specialize (IH (Eread spi SR sr :: t)).
      destruct (eot_wait b fuel spi (Eread spi SR sr :: t))
        as [[] t'|msg t'|t'].
      * destruct IH as (polls & _ & ->).
        exists (polls ++ [sr]). rewrite map_app, <- app_assoc.
        split; [|reflexivity]. now destruct polls.
      * exact IH.
      * destruct IH as (polls & Hlen & ->).
        exists (polls ++ [sr]). rewrite map_app, <- app_assoc, length_app.
        split; [cbn; lia|reflexivity].
    + exists [sr]. split; [discriminate|reflexivity].
Qed.

Variables (buffer : list Z) (t0 : trace).

(** On a causal peripheral with nothing in flight at the start, the bytes
    sent are the caller's, in order. *)
Lemma sent_step (s s' : xfer) (t t' : trace) :
  rx_causal b spi -> in_flight spi t0 = false ->
  (len <= length buffer)%nat ->
  exchange_inv spi len buffer t0 s t ->
  sent_inv spi buffer t0 s t -> (data s < len)%nat ->
  transfer_step b spi receive_data len s t = Done s' t' ->
  sent_inv spi buffer t0 s' t'.
Proof.
  intros Hcausal Hidle Hfits
    (mid' & Hmid' & _ & Hr & Hw & _ & _ & _ & Hlen & Hdrop)
    (mid & -> & Hle & Hsent) Hlt Hs.
  apply app_inv_tail in Hmid'. subst mid'.
  destruct (transfer_step_cases b spi receive_data len s s' _ t' Hs)
    as (send & recv & rdata & Hsend & Hrecv & _ & Hw' & Hd' & _ & ->).
  set (sr := u32 (reg_read b spi SR (mid ++ t0))) in *.
  set (rcvd := if recv then Some rdata else None) in *.
  destruct (pass_events_data spi sr
              (if send then Some (outbound s) else None) rcvd)
    as (_ & Hpw & _).
  exists (pass_events spi sr (if send then Some (outbound s) else None) rcvd
          ++ mid).
  split; [now rewrite app_assoc|].
  rewrite written_app, Hpw, Hsent, Hw', Hd'.
  assert (Hahead : recv = true -> (data s < wptr s)%nat).
  { intros ->. apply negb_true_iff, Z.eqb_neq, Hcausal in Hrecv.
    unfold in_flight in Hrecv, Hidle.
    apply Nat.ltb_lt in Hrecv. apply Nat.ltb_ge in Hidle.
    rewrite <- reads_length, <- written_length in Hrecv, Hidle.
    rewrite reads_app, written_app, !length_app in Hrecv. lia. }
  split.
  - destruct send, recv; try lia; specialize (Hahead eq_refl); lia.
  - destruct send; cbn [option_list]; [|apply app_nil_r].
    apply may_send_bounds in Hsend as (_ & Hwl & _).
    destruct (lookup_lt_is_Some_2 buffer (wptr s)) as [x Hx]; [lia|].
    rewrite (take_S_r _ _ _ Hx), map_app. f_equal. cbn [map]. f_equal.
    unfold outbound. f_equal.
    assert (Hsame : buf s !! wptr s = buffer !! wptr s).
    { replace (wptr s) with (data s + (wptr s - data s))%nat by lia.
      now rewrite <- !lookup_drop, Hdrop. }
    now rewrite Hsame, Hx.
Qed.

End ExchangeLoop.

Section TransferMore.

Context {hdr : DeviceHeader} (b : board).

(** What a call that returns has done: the exchange, left with the
    receive cursor at the length, then reads of SR, then the stop. *)
Lemma spi_transfer_done (Q : xfer -> trace -> Prop) (fuel : nat)
    (config : spi_config) (receive_data : Z) (len : nat)
    (buffer buffer' : list Z) (t t' : trace) :
  Q (xfer_start buffer) (started config len t) ->
  (forall s t1 s' t1',
      exchange_inv (cfg_spi config) len buffer (started config len t) s t1 ->
      Q s t1 -> (data s < len)%nat ->
      transfer_step b (cfg_spi config) receive_data len s t1 = Done s' t1' ->
      Q s' t1') ->
  spi_transfer b fuel config receive_data len buffer t = Done buffer' t' ->
  exists s t1 polls,
    exchange_inv (cfg_spi config) len buffer (started config len t) s t1
    /\ Q s t1
    /\ data s = len
    /\ buf s = buffer'
    /\ polls <> []
    /\ t' = stopped config ++ map (Eread (cfg_spi config) SR) polls ++ t1.
Proof.
  intros HQ Hstep. rewrite spi_transfer_eq.
  set (spi := cfg_spi config).
  set (P := fun s t1 =>
              exchange_inv spi len buffer (started config len t) s t1
              /\ Q s t1).
  pose proof (transfer_loop_invariant b spi receive_data len P) as Hloop.
  specialize (Hloop
    (fun s t1 s' t1' HP Hlt Hs =>
       conj (exchange_step b spi receive_data len buffer
               (started config len t) s s' t1 t1' (proj1 HP) Hlt Hs)
            (Hstep s t1 s' t1' (proj1 HP) (proj2 HP) Hlt Hs))
    fuel (xfer_start buffer) (started config len t)
    (conj (exchange_inv_start spi len buffer (started config len t)) HQ)).
  destruct (transfer_loop b fuel spi receive_data len (xfer_start buffer)
              (started config len t)) as [s t1|msg t1|t1]; try discriminate.
  pose proof (eot_wait_trace b spi fuel t1) as Hwait.
  destruct (eot_wait b fuel spi t1) as [[] t2|msg t2|t2]; try discriminate.
  intros [= <- <-].
  destruct Hloop as ((Hinv & HQs) & Hge).
  destruct Hwait as (polls & Hne & ->).
  exists s, t1, polls. repeat split; auto.
  destruct Hinv as (mid & _ & _ & _ & _ & _ & _ & Hdl & _). lia.
Qed.

(** X9: the register sequence of [spi_transfer], on every board and for
    every input.  The call never shuts down.  It first writes CR2 (the
    length), then CR1 twice (enable, then enable with start); from then
    on it only reads SR and RXDR and writes TXDR of its peripheral; and
    if it returns it has last written IFCR (all ones) and CR1 (disable),
    and the buffer has the length it had. *)
Theorem spi_transfer_register_sequence (fuel : nat) (config : spi_config)
    (receive_data : Z) (len : nat) (buffer : list Z) (t : trace) :
  match spi_transfer b fuel config receive_data len buffer t with
  | Done buffer' t' =>
      exists mid,
        t' = stopped config ++ mid ++ started config len t
        /\ Forall (fun e => is_exchange (cfg_spi config) e = true) mid
        /\ length buffer' = length buffer
  | Halted _ _ => False
  | Polling t' =>
      exists mid,
        t' = mid ++ started config len t
        /\ Forall (fun e => is_exchange (cfg_spi config) e = true) mid
  end.
Proof.
  set (spi := cfg_spi config).
  destruct (spi_transfer b fuel config receive_data len buffer t)
    as [buffer' t'|msg t'|t'] eqn:Hrun.
  - destruct (spi_transfer_done (fun _ _ => True) fuel config receive_data
                len buffer buffer' t t' I (fun _ _ _ _ _ _ _ _ => I) Hrun)
      as (s & t1 & polls & Hinv & _ & _ & <- & _ & ->).
    destruct Hinv as (mid & -> & Hmid & _ & _ & _ & _ & _ & Hlen & _).
    exists (map (Eread spi SR) polls ++ mid).
    rewrite <- app_assoc. split; [reflexivity|]. split; [|exact Hlen].
    apply Forall_app. split; [|exact Hmid].
    apply (status_reads_data spi polls []).
  - revert Hrun. rewrite spi_transfer_eq. fold spi.
    pose proof (transfer_loop_outcome b spi receive_data len
                  (exchange_inv spi len buffer (started config len t))
                  (fun s t1 s' t1' =>
                     exchange_step b spi receive_data len buffer
                       (started config len t) s s' t1 t1')
                  fuel (xfer_start buffer) (started config len t)
                  (exchange_inv_start spi len buffer (started config len t)))
      as Hloop.
    destruct (transfer_loop b fuel spi receive_data len (xfer_start buffer)
                (started config len t)) as [s t1|msg1 t1|t1];
      [|contradiction|discriminate].
    pose proof (eot_wait_trace b spi fuel t1) as Hwait.
    destruct (eot_wait b fuel spi t1) as [[] t2|msg2 t2|t2];
      [discriminate|contradiction|discriminate].
  - revert Hrun. rewrite spi_transfer_eq. fold spi.
    pose proof (transfer_loop_outcome b spi receive_data len
                  (exchange_inv spi len buffer (started config len t))
                  (fun s t1 s' t1' =>
                     exchange_step b spi receive_data len buffer
                       (started config len t) s s' t1 t1')
                  fuel (xfer_start buffer) (started config len t)
                  (exchange_inv_start spi len buffer (started config len t)))
      as Hloop.
    destruct (transfer_loop b fuel spi receive_data len (xfer_start buffer)
                (started config len t)) as [s t1|msg1 t1|t1];
      [|contradiction|].
    + destruct Hloop as ((mid & -> & Hmid & _) & _).
      pose proof (eot_wait_trace b spi fuel (mid ++ started config len t))
        as Hwait.
      destruct (eot_wait b fuel spi (mid ++ started config len t))
        as [[] t2|msg2 t2|t2]; [discriminate|contradiction|].
      intros [= <-]. destruct Hwait as (polls & _ & ->).
      exists (map (Eread spi SR) polls ++ mid).
      rewrite <- app_assoc. split; [reflexivity|].
      apply Forall_app. split; [|exact Hmid].
      apply (status_reads_data spi polls []).
    + intros [= <-]. destruct Hloop as (s' & (mid & -> & Hmid & _) & _).
      exists mid. split; [reflexivity|exact Hmid].
Qed.

End TransferMore.

Section TransferData.

Context {hdr : DeviceHeader} (b : board).

(** The data registers in the log of a call that has returned. *)
Lemma final_data (config : spi_config) (len : nat) (polls : list Z)
    (mid t : trace) :
  reads (cfg_spi config) RXDR
    (stopped config ++ map (Eread (cfg_spi config) SR) polls
     ++ mid ++ started config len t)
  = reads (cfg_spi config) RXDR t ++ reads (cfg_spi config) RXDR mid
  /\ written (cfg_spi config) TXDR
       (stopped config ++ map (Eread (cfg_spi config) SR) polls
        ++ mid ++ started config len t)
     = written (cfg_spi config) TXDR t ++ written (cfg_spi config) TXDR mid.
Proof.
  destruct (stopped_data config
              (map (Eread (cfg_spi config) SR) polls
               ++ mid ++ started config len t)) as [-> ->].
  destruct (status_reads_data (cfg_spi config) polls
              (mid ++ started config len t)) as (-> & -> & _).
  rewrite reads_app, written_app.
  destruct (started_data config len t) as [-> ->]. split; reflexivity.
Qed.

Lemma started_in_flight (config : spi_config) (len : nat) (t : trace) :
  in_flight (cfg_spi config) (started config len t)
  = in_flight (cfg_spi config) t.
Proof.
  unfold in_flight. rewrite <- !reads_length, <- !written_length.
  now destruct (started_data config len t) as [-> ->].
Qed.

(** X10: the bytes a call moves, on every board.  A call that returns has
    read exactly [len] bytes from RXDR and written at most [len] bytes to
    TXDR, and has left the buffer beyond [len] as it was. *)
Theorem spi_transfer_byte_counts (fuel : nat) (config : spi_config)
    (receive_data : Z) (len : nat) (buffer buffer' : list Z)
    (t t' : trace) :
  spi_transfer b fuel config receive_data len buffer t = Done buffer' t' ->
  exists received sent,
    reads (cfg_spi config) RXDR t'
    = reads (cfg_spi config) RXDR t ++ received
    /\ length received = len
    /\ written (cfg_spi config) TXDR t'
       = written (cfg_spi config) TXDR t ++ sent
    /\ (length sent <= len)%nat
    /\ drop len buffer' = drop len buffer.
Proof.
  intros Hrun.
  destruct (spi_transfer_done b (fun _ _ => True) fuel config receive_data
              len buffer buffer' t t' I (fun _ _ _ _ _ _ _ _ => I) Hrun)
    as (s & t1 & polls & Hinv & _ & Hdata & <- & _ & ->).
  destruct Hinv as (mid & -> & _ & Hr & Hw & Hwl & _ & _ & _ & Hdrop).
  exists (reads (cfg_spi config) RXDR mid),
    (written (cfg_spi config) TXDR mid).
  destruct (final_data config len polls mid t) as [-> ->].
  rewrite Hdata in *. repeat split; auto. lia.
Qed.

(** X11: with [receive_data] set and a buffer of at least [len] bytes, on
    every board, the buffer a call returns is the [len] bytes it read
    from RXDR, in the order read, followed by the rest of the caller's
    buffer. *)
Theorem spi_transfer_stores_received (fuel : nat) (config : spi_config)
    (receive_data : Z) (len : nat) (buffer buffer' : list Z)
    (t t' : trace) :
  receive_data <> 0 ->
  (len <= length buffer)%nat ->
  spi_transfer b fuel config receive_data len buffer t = Done buffer' t' ->
  exists received,
    reads (cfg_spi config) RXDR t'
    = reads (cfg_spi config) RXDR t ++ received
    /\ buffer' = received ++ drop len buffer.
Proof.
  intros Hrd Hfits Hrun.
  destruct (spi_transfer_done b
              (received_inv (cfg_spi config) (started config len t))
              fuel config receive_data len buffer buffer' t t')
    as (s & t1 & polls & Hinv & Hrcv & Hdata & <- & _ & ->).
  - exists []. split; reflexivity.
  - intros s t1 s' t1' Hinv HQ Hlt Hs.
    exact (received_step b (cfg_spi config) receive_data len buffer
             (started config len t) s s' t1 t1' Hrd Hfits Hinv HQ Hlt Hs).
  - exact Hrun.
  - destruct Hinv as (mid & -> & _ & _ & _ & _ & _ & _ & _ & Hdrop).
    destruct Hrcv as (mid' & Hmid' & Hreads).
    apply app_inv_tail in Hmid'. subst mid'.
    exists (reads (cfg_spi config) RXDR mid).
    destruct (final_data config len polls mid t) as [-> _].
    split; [reflexivity|].
    rewrite Hdata in Hdrop, Hreads.
    rewrite Hreads, <- Hdrop. symmetry. apply take_drop.
Qed.

(** X12: what is sent.  On a peripheral that shows "receive byte
    available" only while a byte sent is unread, with nothing in flight
    at the call and a buffer of at least [len] bytes, a call that returns
    has written to TXDR the first [len] bytes of the caller's buffer,
    each once and in order, whether or not it stores what it receives. *)
Theorem spi_transfer_sends_buffer (fuel : nat) (config : spi_config)
    (receive_data : Z) (len : nat) (buffer buffer' : list Z)
    (t t' : trace) :
  rx_causal b (cfg_spi config) ->
  in_flight (cfg_spi config) t = false ->
  (len <= length buffer)%nat ->
  spi_transfer b fuel config receive_data len buffer t = Done buffer' t' ->
  written (cfg_spi config) TXDR t'
  = written (cfg_spi config) TXDR t ++ map u8 (take len buffer).
Proof.
  intros Hcausal Hidle Hfits Hrun.
  rewrite <- (started_in_flight config len t) in Hidle.
  destruct (spi_transfer_done b
              (sent_inv (cfg_spi config) buffer (started config len t))
              fuel config receive_data len buffer buffer' t t')
    as (s & t1 & polls & Hinv & Hsent & Hdata & _ & _ & ->).
  - exists []. repeat split. cbn. lia.
  - intros s t1 s' t1' Hinv HQ Hlt Hs.
    exact (sent_step b (cfg_spi config) receive_data len buffer
             (started config len t) s s' t1 t1' Hcausal Hidle Hfits
             Hinv HQ Hlt Hs).
  - exact Hrun.
  - destruct Hinv as (mid & -> & _ & _ & _ & Hwl & _).
    destruct Hsent as (mid' & Hmid' & Hle & Hwritten).
    apply app_inv_tail in Hmid'. subst mid'.
    destruct (final_data config len polls mid t) as [_ ->].
    rewrite Hwritten. do 3 f_equal. lia.
Qed.

(** X13: the bound on the bytes in flight, in the log, on every board:
    whenever the loop test is evaluated, the bytes written to TXDR since
    the loop started are at most [MAX_FIFO] (8) more than the bytes read
    from RXDR since then, and neither are more than [len]. *)
Theorem transfer_in_flight_bound (spi : SPI_TypeDef) (receive_data : Z)
    (len : nat) (buffer : list Z) (t0 : trace) (n : nat) :
  exists mid,
    snd (transfer_at b n spi receive_data len (xfer_start buffer) t0)
    = mid ++ t0
    /\ (length (written spi TXDR mid)
        <= length (reads spi RXDR mid) + MAX_FIFO)%nat
    /\ (length (written spi TXDR mid) <= len)%nat
    /\ (length (reads spi RXDR mid) <= len)%nat.
Proof.
  pose proof (transfer_at_invariant b spi receive_data len
                (exchange_inv spi len buffer t0)
                (fun s t1 s' t1' =>
                   exchange_step b spi receive_data len buffer t0 s s' t1 t1')
                n (xfer_start buffer) t0
                (exchange_inv_start spi len buffer t0)) as Hinv.
  destruct Hinv as (mid & Hmid & _ & Hr & Hw & Hwl & Hfifo & Hdl & _).
  exists mid. rewrite Hr, Hw. auto.
Qed.

(** X14: a peripheral that never shows "receive byte available".  For a
    length above 0 the call does not return, however often it may poll:
    it stays in the exchange loop, having read no byte and written at
    most [MAX_FIFO] (8) bytes and at most [len]. *)
Theorem spi_transfer_blocks_without_rx (fuel : nat) (config : spi_config)
    (receive_data : Z) (len : nat) (buffer : list Z) (t : trace) :
  never_available b (cfg_spi config) ->
  (0 < len)%nat ->
  exists mid,
    spi_transfer b fuel config receive_data len buffer t
    = Polling (mid ++ started config len t)
    /\ reads (cfg_spi config) RXDR mid = []
    /\ (length (written (cfg_spi config) TXDR mid) <= MAX_FIFO)%nat
    /\ (length (written (cfg_spi config) TXDR mid) <= len)%nat.
Proof.
  intros Hnever Hlen. rewrite spi_transfer_eq.
  set (spi := cfg_spi config).
  set (P := fun s t1 =>
              exchange_inv spi len buffer (started config len t) s t1
              /\ data s = 0%nat).
  pose proof (transfer_loop_outcome b spi receive_data len P) as Hloop.
  assert (Hstep : forall s t1 s' t1',
             P s t1 -> (data s < len)%nat ->
             transfer_step b spi receive_data len s t1 = Done s' t1' ->
             P s' t1').
  { intros s t1 s' t1' [Hinv H0] Hlt Hs. split.
    - exact (exchange_step b spi receive_data len buffer
               (started config len t) s s' t1 t1' Hinv Hlt Hs).
    - destruct (transfer_step_cases b spi receive_data len s s' t1 t1' Hs)
        as (send & recv & rdata & _ & Hrecv & _ & _ & Hd' & _).
      pose proof (Hnever t1) as Hz. fold spi in Hz.
      rewrite Hz in Hrecv. cbn in Hrecv. subst recv.
      now rewrite Hd'. }
  specialize (Hloop Hstep fuel (xfer_start buffer) (started config len t)
                (conj (exchange_inv_start spi len buffer
                         (started config len t)) eq_refl)).
  destruct (transfer_loop b fuel spi receive_data len (xfer_start buffer)
              (started config len t)) as [s t1|msg t1|t1].
  - destruct Hloop as ((_ & H0) & Hge). lia.
  - contradiction.
  - destruct Hloop as (s' & ((mid & -> & _ & Hr & Hw & Hwl & Hfifo & _) & H0)
                       & _).
    exists mid. split; [reflexivity|].
    rewrite H0 in *. split; [now apply length_zero_iff_nil|].
    rewrite Hw. split; [exact Hfifo|exact Hwl].
Qed.

(** X15: a length of 0, on every board.  The call makes no pass of the
    exchange loop: it writes the start sequence, reads SR until the end
    of the transfer shows (at least once), writes the stop sequence and
    returns the buffer as it was. *)
Theorem spi_transfer_zero_length (fuel : nat) (config : spi_config)
    (receive_data : Z) (buffer : list Z) (t : trace) :
  match spi_transfer b fuel config receive_data 0 buffer t with
  | Done buffer' t' =>
      buffer' = buffer
      /\ exists polls,
           polls <> []
           /\ t' = stopped config ++ map (Eread (cfg_spi config) SR) polls
                   ++ started config 0 t
  | Halted _ _ => False
  | Polling t' =>
      exists polls,
        length polls = fuel
        /\ t' = map (Eread (cfg_spi config) SR) polls ++ started config 0 t
  end.
Proof.
  rewrite spi_transfer_eq.
  assert (transfer_loop b fuel (cfg_spi config) receive_data 0
            (xfer_start buffer) (started config 0 t)
          = Done (xfer_start buffer) (started config 0 t)) as ->
    by (destruct fuel; reflexivity).
  pose proof (eot_wait_trace b (cfg_spi config) fuel (started config 0 t))
    as Hwait.
  destruct (eot_wait b fuel (cfg_spi config) (started config 0 t))
    as [[] t2|msg t2|t2]; [|exact Hwait|exact Hwait].
  destruct Hwait as (polls & Hne & ->).
  split; [reflexivity|]. exists polls. split; [exact Hne|reflexivity].
Qed.

End TransferData.

(** X16: a peripheral that always has a byte to hand out and always shows
    the end of the transfer.  Allowed more polls than [len], the call
    returns, whatever [receive_data] is. *)
Theorem spi_transfer_returns_when_ready {hdr : DeviceHeader} (b : board)
    (fuel : nat) (config : spi_config) (receive_data : Z) (len : nat)
    (buffer : list Z) (t : trace) :
  always_ready b (cfg_spi config) ->
  (len < fuel)%nat ->
  exists buffer' t',
    spi_transfer b fuel config receive_data len buffer t = Done buffer' t'.
Proof.
  intros Hready Hfuel. rewrite spi_transfer_eq.
  destruct (transfer_loop_ready b (cfg_spi config) receive_data len fuel
              Hready (xfer_start buffer) (started config len t))
    as (s & t1 & ->); [cbn; lia|].
  destruct fuel as [|fuel]; [lia|].
  destruct (eot_wait_ready b (cfg_spi config) fuel t1 Hready) as (t2 & ->).
  eexists _, _. reflexivity.
Qed.

(** * Concrete runs of the further properties *)

Lemma stm32h743xx_cfg1_layout : cfg1_layout (hdr := stm32h743xx).
Proof. unfold cfg1_layout. cbn. lia. Qed.

Lemma stm32h743xx_cfg2_layout : cfg2_layout (hdr := stm32h743xx).
Proof.
  unfold cfg2_layout. cbn [SPI_CFG2_CPHA_Pos SPI_CFG2_CPOL_Msk stm32h743xx].
  repeat split; try lia.
  intros j Hj. assert (j = 24 \/ j = 25) as [ -> | -> ] by lia; reflexivity.
Qed.

Lemma quiet_board_never_available (p : SPI_TypeDef) :
  never_available (hdr := stm32h743xx) quiet_board p.
Proof. intros t. reflexivity. Qed.

Lemma spi_prepare_loads_divisor_witness :
  exists polls old cfg1,
    final_trace (spi_prepare (hdr := stm32h743xx) quiet_board 0
                   (mk_spi_config SPI2 6 0) [])
    = map Etimer_read polls
      ++ [ Ewrite SPI2 CFG2 (cfg2_of_mode (hdr := stm32h743xx) (u32 0));
           Eread SPI2 CFG2 old; Ewrite SPI2 CFG1 cfg1 ]
    /\ Z.land (Z.shiftr cfg1 28) 7 = 6
    /\ Z.land (Z.shiftr cfg1 0) 31 = 7.
Proof.
  exact (spi_prepare_loads_divisor (hdr := stm32h743xx) quiet_board 0
           (mk_spi_config SPI2 6 0) [] stm32h743xx_cfg1_layout
           ltac:(cbn; lia)).
Defined.

Lemma spi_prepare_loads_mode_witness :
  exists polls cfg2,
    final_trace (spi_prepare (hdr := stm32h743xx) quiet_board 0
                   (mk_spi_config SPI2 6 3) [])
    = map Etimer_read polls
      ++ loaded (hdr := stm32h743xx) quiet_board (mk_spi_config SPI2 6 3) []
    /\ hd_error (loaded (hdr := stm32h743xx) quiet_board
                   (mk_spi_config SPI2 6 3) [])
       = Some (Ewrite SPI2 CFG2 cfg2)
    /\ Z.land (Z.shiftr cfg2 24) 3 = 3.
Proof.
  exact (spi_prepare_loads_mode (hdr := stm32h743xx) quiet_board 0
           (mk_spi_config SPI2 6 3) [] stm32h743xx_cfg2_layout
           ltac:(cbn; lia)).
Defined.

Lemma quiet_board_holds_written (p : SPI_TypeDef) (r : spi_reg) :
  r = CFG2 -> holds_written quiet_board p r.
Proof. intros -> t x Hx. cbn. now rewrite Hx. Qed.

(** Mode 1 after mode 0: bit 1 is the same, no wait. *)
Lemma spi_prepare_waits_on_mode_bit_witness :
  let t1 := prepared (hdr := stm32h743xx) quiet_board
              (mk_spi_config SPI2 6 0) [] in
  spi_prepare (hdr := stm32h743xx) quiet_board 0 (mk_spi_config SPI2 6 1) t1
  = Done tt (prepared (hdr := stm32h743xx) quiet_board
               (mk_spi_config SPI2 6 1) t1).
Proof.
  cbv zeta.
  assert (Hprev : spi_prepare (hdr := stm32h743xx) quiet_board 0
                    (mk_spi_config SPI2 6 0) []
                  = Done tt (prepared (hdr := stm32h743xx) quiet_board
                               (mk_spi_config SPI2 6 0) []))
    by (vm_compute; reflexivity).
  pose proof (spi_prepare_waits_on_mode_bit (hdr := stm32h743xx) quiet_board
                0 0 (mk_spi_config SPI2 6 0) (mk_spi_config SPI2 6 1) [] _
                stm32h743xx_cfg2_layout
                (quiet_board_holds_written SPI2 CFG2 eq_refl) eq_refl
                ltac:(cbn; lia) ltac:(cbn; lia) Hprev) as [Hsame _].
  apply Hsame. reflexivity.
Defined.

Lemma loopback_run :
  spi_transfer (hdr := stm32h743xx) loopback_board 5
    (mk_spi_config SPI2 6 0) 1 2 [5; 6] []
  = Done [5; 6] loopback_log.
Proof. vm_compute. reflexivity. Qed.

Lemma spi_transfer_byte_counts_witness :
  exists received sent,
    reads SPI2 RXDR loopback_log = received
    /\ length received = 2%nat
    /\ written SPI2 TXDR loopback_log = sent
    /\ (length sent <= 2)%nat
    /\ drop 2 [5; 6] = drop 2 [5; 6].
Proof.
  exact (spi_transfer_byte_counts (hdr := stm32h743xx) loopback_board 5
           (mk_spi_config SPI2 6 0) 1 2 [5; 6] [5; 6] [] loopback_log
           loopback_run).
Defined.

Lemma spi_transfer_stores_received_witness :
  exists received,
    reads SPI2 RXDR loopback_log = received
    /\ [5; 6] = received ++ drop 2 [5; 6].
Proof.
  exact (spi_transfer_stores_received (hdr := stm32h743xx) loopback_board 5
           (mk_spi_config SPI2 6 0) 1 2 [5; 6] [5; 6] [] loopback_log
           ltac:(discriminate) ltac:(cbn; lia) loopback_run).
Defined.

Lemma spi_transfer_sends_buffer_witness :
  written SPI2 TXDR loopback_log = [5; 6].
Proof.
  exact (spi_transfer_sends_buffer (hdr := stm32h743xx) loopback_board 5
           (mk_spi_config SPI2 6 0) 1 2 [5; 6] [5; 6] [] loopback_log
           (echo_board_causal (hdr := stm32h743xx) _ SPI2) eq_refl
           ltac:(cbn; lia) loopback_run).
Defined.

Lemma spi_transfer_blocks_without_rx_witness :
  exists mid,
    spi_transfer (hdr := stm32h743xx) quiet_board 20
      (mk_spi_config SPI2 6 0) 1 2 [5; 6] []
    = Polling (mid ++ started (hdr := stm32h743xx)
                        (mk_spi_config SPI2 6 0) 2 [])
    /\ reads SPI2 RXDR mid = []
    /\ (length (written SPI2 TXDR mid) <= MAX_FIFO)%nat
    /\ (length (written SPI2 TXDR mid) <= 2)%nat.
Proof.
  exact (spi_transfer_blocks_without_rx (hdr := stm32h743xx) quiet_board 20
           (mk_spi_config SPI2 6 0) 1 2 [5; 6] []
           (quiet_board_never_available SPI2) ltac:(lia)).
Defined.

Lemma spi_transfer_returns_when_ready_witness :
  exists buffer' t',
    spi_transfer (hdr := stm32h743xx) (steady_board 4294967295) 3
      (mk_spi_config SPI2 6 0) 1 2 [5; 6] []
    = Done buffer' t'.
Proof.
  exact (spi_transfer_returns_when_ready (hdr := stm32h743xx)
           (steady_board 4294967295) 3 (mk_spi_config SPI2 6 0) 1 2 [5; 6] []
           (steady_board_ready SPI2) ltac:(lia)).
Defined.
